(** * ORACLE streaming pipeline (api/index.py): a shallow embedding

    Python [str] values are modelled as lists of Unicode code points
    ([N]); the JSON layer ([json.dumps] with its default ASCII escaping,
    [json.loads] restricted to the flat string objects the pipeline
    emits), the substring test and [str.strip] are written out over
    them.  Generators are modelled by the list of effects they perform
    (chunks yielded, backend streams opened) together with their
    outcome (normal return or an escaping exception). *)

From Stdlib Require Import NArith ZArith List Bool Lia String Ascii.
Import ListNotations.
Local Open Scope N_scope.

(** ** Python strings *)

Definition pystr := list N.

Module Str.

(** Decoding of the UTF-8 bytes of a source literal into code points
    (1- to 4-byte sequences). *)
Fixpoint utf8 (bs : list N) : pystr :=
  match bs with
  | [] => []
  | b :: r =>
      if b <? 128 then b :: utf8 r
      else if b <? 224 then
        match r with
        | b1 :: r1 => ((b - 192) * 64 + (b1 - 128)) :: utf8 r1
        | _ => [b]
        end
      else if b <? 240 then
        match r with
        | b1 :: b2 :: r2 =>
            ((b - 224) * 4096 + (b1 - 128) * 64 + (b2 - 128)) :: utf8 r2
        | _ => [b]
        end
      else
        match r with
        | b1 :: b2 :: b3 :: r3 =>
            ((b - 240) * 262144 + (b1 - 128) * 4096
             + (b2 - 128) * 64 + (b3 - 128)) :: utf8 r3
        | _ => [b]
        end
  end.

Fixpoint bytes_of (s : string) : list N :=
  match s with
  | EmptyString => []
  | String a r => N_of_ascii a :: bytes_of r
  end.

Definition lit (s : string) : pystr := utf8 (bytes_of s).

End Str.

Definition py : string -> pystr := Str.lit.
Arguments py _%_string.

(** The double quote, the backslash and the line feed. *)
Definition DQ : N := 34.
Definition BS : N := 92.
Definition LF : N := 10.

(** [a == b]. *)
Fixpoint str_eqb (a b : pystr) : bool :=
  match a, b with
  | [], [] => true
  | x :: a', y :: b' => (x =? y) && str_eqb a' b'
  | _, _ => false
  end.

(** [bool(s)]: a string is truthy when it is not empty. *)
Definition truthy (s : pystr) : bool :=
  match s with [] => false | _ => true end.

(** [sep.join(parts)]. *)
Fixpoint join (sep : pystr) (parts : list pystr) : pystr :=
  match parts with
  | [] => []
  | [p] => p
  | p :: rest => p ++ sep ++ join sep rest
  end.

(** [str.isspace] on one code point (CPython's [_PyUnicode_IsWhitespace]). *)
Definition is_space (c : N) : bool :=
  ((9 <=? c) && (c <=? 13)) || ((28 <=? c) && (c <=? 32))
  || (c =? 133) || (c =? 160) || (c =? 5760)
  || ((8192 <=? c) && (c <=? 8202))
  || (c =? 8232) || (c =? 8233) || (c =? 8239) || (c =? 8287)
  || (c =? 12288).

Fixpoint lstrip (s : pystr) : pystr :=
  match s with
  | [] => []
  | c :: r => if is_space c then lstrip r else s
  end.

Definition rstrip (s : pystr) : pystr := rev (lstrip (rev s)).

(** [s.strip()]. *)
Definition strip (s : pystr) : pystr := rstrip (lstrip s).

(** [pat in s]: [pat] occurs in [s] as a contiguous substring. *)
Fixpoint starts_with (pat s : pystr) : bool :=
  match pat, s with
  | [], _ => true
  | _ :: _, [] => false
  | p :: pat', c :: s' => (p =? c) && starts_with pat' s'
  end.

Fixpoint contains (pat s : pystr) : bool :=
  starts_with pat s ||
  match s with
  | [] => false
  | _ :: s' => contains pat s'
  end.

(** ** Exceptions and results *)

Inductive exn : Type :=
| ValueError (msg : pystr)
| RuntimeError (msg : pystr)
| ImportError (msg : pystr)
| IndexError (msg : pystr)
| KeyError (key : pystr)
| JSONDecodeError (msg : pystr)
| OtherError (msg : pystr).

(** [str(e)]; a [KeyError] prints the [repr] of its key. *)
Definition str_exn (e : exn) : pystr :=
  match e with
  | ValueError m | RuntimeError m | ImportError m | IndexError m
  | JSONDecodeError m | OtherError m => m
  | KeyError k => [39] ++ k ++ [39]
  end.

Inductive result (A : Type) : Type :=
| Ok (a : A)
| Raise (e : exn).
Arguments Ok {A} a.
Arguments Raise {A} e.

(** ** JSON *)

Module Json.

(** A [dict] with string keys and string values, in insertion order. *)
Definition dict := list (pystr * pystr).

(** [d[key]]: the binding inserted last wins. *)
Fixpoint get (key : pystr) (d : dict) : option pystr :=
  match d with
  | [] => None
  | (k, v) :: r =>
      match get key r with
      | Some v' => Some v'
      | None => if str_eqb k key then Some v else None
      end
  end.

(** One lowercase hexadecimal digit. *)
Definition hexdigit (d : N) : N := if d <? 10 then 48 + d else 87 + d.

(** ['{0:04x}'.format(n)] for [n < 0x10000]. *)
Definition hex4 (n : N) : pystr :=
  [hexdigit (n / 4096); hexdigit ((n / 256) mod 16);
   hexdigit ((n / 16) mod 16); hexdigit (n mod 16)].

Definition u_escape (n : N) : pystr := BS :: 117 :: hex4 n.

(** [ESCAPE_ASCII] leaves the characters from space to tilde alone,
    except the backslash and the double quote. *)
Definition plain (c : N) : bool :=
  (32 <=? c) && (c <=? 126) && negb (c =? DQ) && negb (c =? BS).

(** The two-character escapes of [ESCAPE_DCT]. *)
Definition short_escape (c : N) : option N :=
  if c =? BS then Some BS
  else if c =? DQ then Some DQ
  else if c =? 8 then Some 98
  else if c =? 12 then Some 102
  else if c =? 10 then Some 110
  else if c =? 13 then Some 114
  else if c =? 9 then Some 116
  else None.

(** [replace] in [py_encode_basestring_ascii]. *)
Definition esc_char (c : N) : pystr :=
  if plain c then [c]
  else match short_escape c with
       | Some e => [BS; e]
       | None =>
           if c <? 65536 then u_escape c
           else
             let n := c - 65536 in
             let s1 := N.lor 55296 (N.land (N.shiftr n 10) 1023) in
             let s2 := N.lor 56320 (N.land n 1023) in
             u_escape s1 ++ u_escape s2
       end.

Fixpoint escape (s : pystr) : pystr :=
  match s with
  | [] => []
  | c :: r => esc_char c ++ escape r
  end.

(** [json.dumps(s)] for a string. *)
Definition dumps_str (s : pystr) : pystr := DQ :: escape s ++ [DQ].

Definition dumps_item (kv : pystr * pystr) : pystr :=
  dumps_str (fst kv) ++ py ": " ++ dumps_str (snd kv).

(** [json.dumps(d)] with the default separators. *)
Definition dumps (d : dict) : pystr :=
  py "{" ++ join (py ", ") (map dumps_item d) ++ py "}".

(** [int(esc, 16)] on one digit. *)
Definition hexval (c : N) : option N :=
  if (48 <=? c) && (c <=? 57) then Some (c - 48)
  else if (97 <=? c) && (c <=? 102) then Some (c - 87)
  else if (65 <=? c) && (c <=? 70) then Some (c - 55)
  else None.

(** [_decode_uXXXX]: the value of four hexadecimal digits. *)
Definition unhex4 (a b c d : N) : option N :=
  match hexval a, hexval b, hexval c, hexval d with
  | Some x, Some y, Some z, Some w => Some (((x * 16 + y) * 16 + z) * 16 + w)
  | _, _, _, _ => None
  end.

Definition is_high (u : N) : bool := (55296 <=? u) && (u <=? 56319).
Definition is_low (u : N) : bool := (56320 <=? u) && (u <=? 57343).

(** The code point of a surrogate pair. *)
Definition join_surrogates (hi lo : N) : N :=
  65536 + N.lor (N.shiftl (hi - 55296) 10) (lo - 56320).

(** [BACKSLASH]: the character a two-character escape stands for. *)
Definition unescape (e : N) : option N :=
  if e =? DQ then Some DQ
  else if e =? BS then Some BS
  else if e =? 47 then Some 47
  else if e =? 98 then Some 8
  else if e =? 102 then Some 12
  else if e =? 110 then Some 10
  else if e =? 114 then Some 13
  else if e =? 116 then Some 9
  else None.

Definition push (c : N) (r : option (pystr * pystr)) : option (pystr * pystr) :=
  match r with
  | Some (s, rest) => Some (c :: s, rest)
  | None => None
  end.

(** [py_scanstring] in strict mode, started just after the opening
    quote: the decoded string and the input left after the closing
    quote, or [None] where the decoder raises. *)
Fixpoint scanstring (s : pystr) : option (pystr * pystr) :=
  match s with
  | [] => None
  | c :: r =>
      if c =? DQ then Some ([], r)
      else if c =? BS then
        match r with
        | [] => None
        | e :: r1 =>
            if e =? 117 then
              match r1 with
              | h1 :: h2 :: h3 :: h4 :: r2 =>
                  match unhex4 h1 h2 h3 h4 with
                  | None => None
                  | Some uni =>
                      if is_high uni then
                        match r2 with
                        | b :: u :: r3 =>
                            if (b =? BS) && (u =? 117) then
                              match r3 with
                              | l1 :: l2 :: l3 :: l4 :: r4 =>
                                  match unhex4 l1 l2 l3 l4 with
                                  | None => None
                                  | Some uni2 =>
                                      if is_low uni2
                                      then push (join_surrogates uni uni2)
                                                (scanstring r4)
                                      else push uni (scanstring r2)
                                  end
                              | _ => None
                              end
                            else push uni (scanstring r2)
                        | _ => push uni (scanstring r2)
                        end
                      else push uni (scanstring r2)
                  end
              | _ => None
              end
            else
              match unescape e with
              | Some ch => push ch (scanstring r1)
              | None => None
              end
        end
      else if c <? 32 then None
      else push c (scanstring r)
  end.

(** JSON whitespace. *)
Definition is_ws (c : N) : bool :=
  (c =? 32) || (c =? 9) || (c =? 10) || (c =? 13).

Fixpoint skip_ws (s : pystr) : pystr :=
  match s with
  | [] => []
  | c :: r => if is_ws c then skip_ws r else s
  end.

(** The loop of [JSONObject], started just after the opening quote of
    a key.  Only string values are covered: any other value is reported
    as [None], like a malformed document. *)
Fixpoint members (fuel : nat) (s : pystr) : option (dict * pystr) :=
  match fuel with
  | O => None
  | S fuel' =>
      match scanstring s with
      | None => None
      | Some (key, s1) =>
          match skip_ws s1 with
          | c :: s2 =>
              if c =? 58 then
                match skip_ws s2 with
                | q :: s3 =>
                    if q =? DQ then
                      match scanstring s3 with
                      | None => None
                      | Some (value, s4) =>
                          match skip_ws s4 with
                          | d :: s5 =>
                              if d =? 125 then Some ([(key, value)], s5)
                              else if d =? 44 then
                                match skip_ws s5 with
                                | q' :: s6 =>
                                    if q' =? DQ then
                                      match members fuel' s6 with
                                      | Some (m, rest) =>
                                          Some ((key, value) :: m, rest)
                                      | None => None
                                      end
                                    else None
                                | [] => None
                                end
                              else None
                          | [] => None
                          end
                      end
                    else None
                | [] => None
                end
              else None
          | [] => None
          end
      end
  end.

(** [json.loads(s)] on the documents that are one object with string
    values; every other input is an error here. *)
Definition loads (s : pystr) : result dict :=
  match skip_ws s with
  | c :: s1 =>
      if c =? 123 then
        match skip_ws s1 with
        | q :: s2 =>
            if q =? 125 then
              match skip_ws s2 with
              | [] => Ok []
              | _ => Raise (JSONDecodeError (py "Extra data"))
              end
            else if q =? DQ then
              match members (List.length s2) s2 with
              | Some (d, rest) =>
                  match skip_ws rest with
                  | [] => Ok d
                  | _ => Raise (JSONDecodeError (py "Extra data"))
                  end
              | None => Raise (JSONDecodeError (py "Invalid object"))
              end
            else Raise (JSONDecodeError
                          (py "Expecting property name enclosed in double quotes"))
        | [] => Raise (JSONDecodeError
                         (py "Expecting property name enclosed in double quotes"))
        end
      else Raise (JSONDecodeError (py "Expecting value"))
  | [] => Raise (JSONDecodeError (py "Expecting value"))
  end.

End Json.

(** ** Generators

    A generator is run to its end: the effects it performed, in order,
    and how it finished.  Effects are the chunks it yielded and the
    streaming calls it opened on the backend. *)

(** The arguments of [client.chat.completions.create]; the temperature
    0.3 is kept in tenths. *)
Record request : Type := {
  model : pystr;
  temperature_tenths : N;
  stream : bool;
  messages : list (pystr * pystr)
}.

Inductive effect : Type :=
| Yield (chunk : pystr)
| Create (req : request).

Definition gen (A : Type) : Type := (list effect * result A)%type.

Module Gen.

Definition ret {A} (a : A) : gen A := ([], Ok a).

Definition bind {A B} (m : gen A) (k : A -> gen B) : gen B :=
  match m with
  | (effs, Ok a) => let (effs', r) := k a in (effs ++ effs', r)
  | (effs, Raise e) => (effs, Raise e)
  end.

Definition yield (chunk : pystr) : gen unit := ([Yield chunk], Ok tt).

Definition perform (eff : effect) : gen unit := ([eff], Ok tt).

Definition lift {A} (r : result A) : gen A := ([], r).

(** [try: body / except Exception as e: handler]. *)
Definition try_except {A} (body : gen A) (handler : exn -> gen A) : gen A :=
  match body with
  | (effs, Raise e) => let (effs', r) := handler e in (effs ++ effs', r)
  | (effs, Ok a) => (effs, Ok a)
  end.

(** The chunks a run yielded, in order. *)
Fixpoint yields (effs : list effect) : list pystr :=
  match effs with
  | [] => []
  | Yield c :: r => c :: yields r
  | Create _ :: r => yields r
  end.

(** The backend calls a run made, in order. *)
Fixpoint calls (effs : list effect) : list request :=
  match effs with
  | [] => []
  | Yield _ :: r => calls r
  | Create q :: r => q :: calls r
  end.

End Gen.

Notation "x <- m ;; k" := (Gen.bind m (fun x => k))
  (at level 61, m at next level, right associativity).
Notation "m ;; k" := (Gen.bind m (fun _ => k))
  (at level 61, right associativity).

(** Sequencing of plain results. *)
Definition and_then {A B} (r : result A) (k : A -> result B) : result B :=
  match r with
  | Ok a => k a
  | Raise e => Raise e
  end.

Notation "'let*' x ':=' r 'in' k" := (and_then r (fun x => k))
  (at level 10, x name, r at level 100, k at level 200).

(** ** The environment of one request *)

(** One backend chunk: the [delta.content] of each of its choices. *)
Definition chunk : Type := list (option pystr).

(** What an opened stream delivers: finitely many chunks, then the
    normal end or an exception. *)
Definition token_stream : Type := (list chunk * option exn)%type.

Record AsyncOpenAI : Type := {
  api_key : pystr;
  base_url : pystr
}.

Record Env : Type := {
  (** whether [from pypdf import PdfReader] succeeds *)
  pypdf_installed : bool;
  b64decode : pystr -> result (list N);
  (** [PdfReader(io.BytesIO(b)).pages], each page with the outcome of
      its [extract_text()] *)
  PdfReader : list N -> result (list (result (option pystr)));
  getenv : pystr -> option pystr;
  chat_completions_create : AsyncOpenAI -> request -> result token_stream
}.

Definition getenv_default (env : Env) (name default : pystr) : pystr :=
  match getenv env name with
  | Some v => v
  | None => default
  end.

(** ** PDF extraction *)

Definition EMPTY_PDF : pystr :=
  py "PDF is empty or image-only (scanned PDF not supported).".

Definition NO_PYPDF : pystr := py "pypdf not installed. Run: pip install pypdf".

(** [p.extract_text() or ""] for each page, in page order. *)
Fixpoint page_texts (pages : list (result (option pystr))) : result (list pystr) :=
  match pages with
  | [] => Ok []
  | p :: r =>
      let* t := p in
      let* ts := page_texts r in
      Ok (match t with
          | Some s => if truthy s then s else []
          | None => []
          end :: ts)
  end.

Definition extract_pdf_text (env : Env) (pdf_base64 : pystr) : result pystr :=
  let body :=
    if pypdf_installed env then
      let* pdf_bytes := b64decode env pdf_base64 in
      let* pages := PdfReader env pdf_bytes in
      let* texts := page_texts pages in
      let text := strip (join [LF; LF] texts) in
      if negb (truthy text) then Raise (ValueError EMPTY_PDF)
      else Ok text
    else Raise (ImportError (py "No module named 'pypdf'"))
  in
  match body with
  | Raise (ImportError _) => Raise (RuntimeError NO_PYPDF)
  | r => r
  end.

(** ** OpenAI client *)

Definition get_client (env : Env) : result AsyncOpenAI :=
  match getenv env (py "OPENAI_API_KEY") with
  | Some key =>
      if truthy key then
        Ok {| api_key := key;
              base_url := getenv_default env (py "OPENAI_BASE_URL")
                            (py "https://api.openai.com/v1") |}
      else Raise (RuntimeError (py "OPENAI_API_KEY is not set."))
  | None => Raise (RuntimeError (py "OPENAI_API_KEY is not set."))
  end.

Definition MODEL (env : Env) : pystr :=
  getenv_default env (py "OPENAI_MODEL") (py "gpt-4o-mini").

(** ** Streaming LLM call *)

(** [f"data: {json.dumps(event)}\n\n"]. *)
Definition sse (event : Json.dict) : pystr :=
  py "data: " ++ Json.dumps event ++ [LF; LF].

Definition ev_running (agent : pystr) : Json.dict :=
  [(py "agent", agent); (py "status", py "running")].
Definition ev_token (agent token : pystr) : Json.dict :=
  [(py "agent", agent); (py "status", py "token"); (py "token", token)].
Definition ev_done (agent output : pystr) : Json.dict :=
  [(py "agent", agent); (py "status", py "done"); (py "output", output)].
Definition ev_error (agent error : pystr) : Json.dict :=
  [(py "agent", agent); (py "status", py "error"); (py "error", error)].

(** [chunk.choices[0].delta.content]. *)
Definition chunk_token (c : chunk) : result (option pystr) :=
  match c with
  | [] => Raise (IndexError (py "list index out of range"))
  | content :: _ => Ok content
  end.

(** [async for chunk in stream: body], threading the loop state. *)
Fixpoint for_chunks {S} (chunks : list chunk) (body : chunk -> S -> gen S)
  (st : S) : gen S :=
  match chunks with
  | [] => Gen.ret st
  | c :: r => st' <- body c st ;; for_chunks r body st'
  end.

Definition async_for_stream {S} (s : token_stream) (body : chunk -> S -> gen S)
  (st : S) : gen S :=
  st' <- for_chunks (fst s) body st ;;
  match snd s with
  | None => Gen.ret st'
  | Some e => Gen.lift (Raise e)
  end.

(** The body of the loop over the backend stream, with [full_text] as
    the loop state. *)
Definition forward (agent_key : pystr) (chunk : chunk) (full_text : list pystr)
  : gen (list pystr) :=
  token <- Gen.lift (chunk_token chunk) ;;
  match token with
  | Some t =>
      if truthy t then
        Gen.yield (sse (ev_token agent_key t)) ;;
        Gen.ret (full_text ++ [t])
      else Gen.ret full_text
  | None => Gen.ret full_text
  end.

Definition create_args (env : Env) (system user : pystr) : request :=
  {| model := MODEL env; temperature_tenths := 3; stream := true;
     messages := [(py "system", system); (py "user", user)] |}.

Definition llm_stream (env : Env) (client : AsyncOpenAI)
  (agent_key system user : pystr) : gen unit :=
  Gen.try_except
    (Gen.perform (Create (create_args env system user)) ;;
     s <- Gen.lift (chat_completions_create env client
                      (create_args env system user)) ;;
     full_text <- async_for_stream s (forward agent_key) [] ;;
     Gen.yield (sse (ev_done agent_key (join [] full_text))))
    (fun e => Gen.yield (sse (ev_error agent_key (str_exn e)))).

(** ** Agent system prompts *)

Definition SYS_SUMMARIZER : pystr := Eval vm_compute in py "
You are an expert talent intelligence analyst specialising in reading LinkedIn profiles.
Your job: analyse the HR manager's LinkedIn profile text and extract structured intelligence.

CONTEXT: A job candidate wants to reach out to this HR manager. Your summary will be used
by downstream agents to research the company and craft a personalised outreach strategy.

RULES:
- Use markdown: ## for section headers, **bold** for names/titles/companies, - for bullets
- Be concise: 3-5 bullets per section, no waffle
- Focus on signals that would help a candidate connect with this person personally".

Definition SYS_RESEARCHER : pystr := Eval vm_compute in py "
You are a corporate intelligence researcher. Your job: build a deep intelligence brief
on the HR manager's company so a job candidate can reference specific, accurate details
in their outreach message, making it feel informed and non-generic.

RULES:
- Use markdown: ## for sections, **bold** for key facts, - for bullets
- 4-6 bullets per section, specific and factual
- If you lack live data, reason clearly from the profile context and known industry patterns
- Flag anything a candidate could use as a natural conversation hook".

Definition SYS_EVALUATOR : pystr := Eval vm_compute in py "
You are a career strategist and resume fitness evaluator. Your job: cross-reference
the CANDIDATE'S resume against the HR manager's company and role needs.

IMPORTANT DIRECTION: The CANDIDATE is reaching out TO the HR manager, not the other way around.
Evaluate the candidate's fit from the candidate's perspective.

RULES:
- Use markdown: ## for sections, **bold** for key points
- Be honest and specific: flag real gaps, don't just be positive
- End with ## Fit Score: X/10 and a one-sentence justification".

Definition SYS_STRATEGIST : pystr := Eval vm_compute in py "
You are a master job-search outreach strategist. Your job: write a strategy and a
ready-to-send message FROM the candidate TO the HR manager.

CRITICAL DIRECTION - never mix this up:
- SENDER   = the JOB CANDIDATE (whose resume you have)
- RECEIVER = the HR MANAGER (whose LinkedIn profile was analysed)
- The message must be written in FIRST PERSON as the CANDIDATE, addressed to the HR MANAGER by name

RULES:
- Use ## APPROACH STRATEGY and ## OUTREACH MESSAGE as section headers
- Strategy: 4 bullets (channel, timing, conversation hook, what to avoid)
- Message: under 150 words, written AS the candidate TO the HR manager
- Do NOT use placeholder names like [Your Name] — sign off with " ++ [DQ] ++ py "Best regards," ++ [DQ] ++ py " only
- Reference specific real details from the candidate's background AND the company research
- Lead with value the candidate offers, not a generic compliment
- End with a single low-friction call to action (e.g. " ++ [DQ] ++ py "Would a 15-minute call this week work?" ++ [DQ] ++ py ")".

(** ** Pipeline *)

Definition AGENT_KEYS : list pystr :=
  [py "profile_summary"; py "deep_research"; py "fitness_eval"; py "strategy"].

Definition DONE : pystr := py "data: [DONE]" ++ [LF; LF].

(** The substring that marks a token event in a serialized chunk. *)
Definition STATUS_TOKEN : pystr :=
  Eval vm_compute in
    ([DQ] ++ py "status" ++ [DQ] ++ py ": " ++ [DQ] ++ py "token" ++ [DQ]).

Definition resume_block_of (resume : pystr) : pystr :=
  if truthy (strip resume) then py "CANDIDATE RESUME:
" ++ resume
  else py "No resume provided — evaluate generally.".

Definition summary_prompt (linkedin_text : pystr) : pystr :=
  py "
Analyse this LinkedIn profile PDF text and extract a structured summary.

LINKEDIN PROFILE TEXT:
" ++ linkedin_text ++ py "

Cover: name & title, career history (key milestones only), core skills,
education, personality signals, what they value in candidates.
".

Definition research_prompt (profile_summary_text : pystr) : pystr :=
  py "
Research this HR manager's company based on their profile.

HR MANAGER PROFILE:
" ++ profile_summary_text ++ py "

Cover: company overview, recent news, culture signals, current hiring trends,
strategic priorities, one unique angle a candidate could use in outreach.
If live data unavailable, reason from context and industry knowledge.
".

Definition eval_prompt (resume_block profile_summary_text deep_research_text : pystr)
  : pystr :=
  py "
" ++ resume_block ++ py "

HR MANAGER PROFILE:
" ++ profile_summary_text ++ py "

COMPANY RESEARCH:
" ++ deep_research_text ++ py "

Evaluate: skills alignment, experience relevance, culture fit, gaps,
unique value proposition, fit score 1-10 with justification.
".

Definition strategy_prompt
  (resume_block profile_summary_text deep_research_text fitness_eval_text : pystr)
  : pystr :=
  py "
You are helping THE CANDIDATE write a message TO the HR manager.
THE CANDIDATE is the sender. THE HR MANAGER is the recipient.

--- CANDIDATE'S BACKGROUND (the SENDER) ---
" ++ resume_block ++ py "

--- HR MANAGER PROFILE (the RECIPIENT) ---
" ++ profile_summary_text ++ py "

--- COMPANY RESEARCH ---
" ++ deep_research_text ++ py "

--- FITNESS EVALUATION ---
" ++ fitness_eval_text ++ py "

Now produce:
1. ## APPROACH STRATEGY — 4 bullets on how the candidate should approach outreach
2. ## OUTREACH MESSAGE — a complete message written in first person AS the candidate,
   addressed to the HR manager by their first name. Under 150 words. No placeholder text.
".

(** [async for chunk in g: body], for a generator [g] run to its end:
    the body runs on each chunk [g] yields, in order; the other effects
    of [g] happen in between; a body that raises abandons [g]. *)
Fixpoint for_effects {S} (effs : list effect) (body : pystr -> S -> gen S)
  (st : S) : gen S :=
  match effs with
  | [] => Gen.ret st
  | Yield c :: r => st' <- body c st ;; for_effects r body st'
  | Create q :: r => Gen.perform (Create q) ;; for_effects r body st
  end.

Definition async_for {S} (g : gen unit) (body : pystr -> S -> gen S) (st : S)
  : gen S :=
  st' <- for_effects (fst g) body st ;;
  match snd g with
  | Ok _ => Gen.ret st'
  | Raise e => Gen.lift (Raise e)
  end.

(** [d["token"]]. *)
Definition token_of (d : Json.dict) : result pystr :=
  match Json.get (py "token") d with
  | Some t => Ok t
  | None => Raise (KeyError (py "token"))
  end.

(** The loop body of the first three agents: a chunk that contains the
    marker is parsed again and its token appended; every chunk is
    passed on. *)
Definition capture (chunk : pystr) (acc : list pystr) : gen (list pystr) :=
  acc' <- (if contains STATUS_TOKEN chunk then
             d <- Gen.lift (Json.loads (skipn 6 chunk)) ;;
             token <- Gen.lift (token_of d) ;;
             Gen.ret (acc ++ [token])
           else Gen.ret acc) ;;
  Gen.yield chunk ;;
  Gen.ret acc'.

Definition pass_on (chunk : pystr) (st : unit) : gen unit :=
  Gen.yield chunk.

(** [for k in AGENT_KEYS: yield sse({... "status": "error" ...})]. *)
Fixpoint fan_out (keys : list pystr) (msg : pystr) : gen unit :=
  match keys with
  | [] => Gen.ret tt
  | k :: r => Gen.yield (sse (ev_error k msg)) ;; fan_out r msg
  end.

Definition run_pipeline (env : Env) (linkedin_pdf resume resume_pdf : pystr)
  : gen unit :=
  match extract_pdf_text env linkedin_pdf with
  | Raise e =>
      fan_out AGENT_KEYS (py "LinkedIn PDF: " ++ str_exn e) ;;
      Gen.yield DONE
  | Ok linkedin_text =>
      match (if truthy resume_pdf then extract_pdf_text env resume_pdf
             else Ok resume) with
      | Raise e =>
          fan_out AGENT_KEYS (py "Resume PDF: " ++ str_exn e) ;;
          Gen.yield DONE
      | Ok resume =>
          match get_client env with
          | Raise e =>
              fan_out AGENT_KEYS (str_exn e) ;;
              Gen.yield DONE
          | Ok client =>
              let resume_block := resume_block_of resume in
              Gen.yield (sse (ev_running (py "profile_summary"))) ;;
              profile_summary <-
                async_for (llm_stream env client (py "profile_summary")
                             SYS_SUMMARIZER (summary_prompt linkedin_text))
                  capture [] ;;
              let profile_summary_text := join [] profile_summary in
              Gen.yield (sse (ev_running (py "deep_research"))) ;;
              deep_research <-
                async_for (llm_stream env client (py "deep_research")
                             SYS_RESEARCHER (research_prompt profile_summary_text))
                  capture [] ;;
              let deep_research_text := join [] deep_research in
              Gen.yield (sse (ev_running (py "fitness_eval"))) ;;
              fitness_eval <-
                async_for (llm_stream env client (py "fitness_eval")
                             SYS_EVALUATOR
                             (eval_prompt resume_block profile_summary_text
                                deep_research_text))
                  capture [] ;;
              let fitness_eval_text := join [] fitness_eval in
              Gen.yield (sse (ev_running (py "strategy"))) ;;
              async_for (llm_stream env client (py "strategy")
                           SYS_STRATEGIST
                           (strategy_prompt resume_block profile_summary_text
                              deep_research_text fitness_eval_text))
                pass_on tt ;;
              Gen.yield DONE
          end
      end
  end.

(** ** Routes *)


(** The JSON body of a request, as far as the model reads it: each
    field is absent or a string. *)
Record body : Type := {
  body_linkedin_pdf : option pystr;
  body_resume : option pystr;
  body_resume_pdf : option pystr
}.






(** * Vocabulary of the statements

    Functions and predicates the lemmas below are stated with. *)

Module JsonRead.
Import Json.

(** The surrogates that [esc_char] writes for a character above the
    basic plane. *)
Definition hi (c : N) : N := N.lor 55296 (N.land (N.shiftr (c - 65536) 10) 1023).
Definition lo (c : N) : N := N.lor 56320 (N.land (c - 65536) 1023).

(** The four forms [esc_char] writes a character in. *)
Inductive esc_shape (c : N) : pystr -> Prop :=
| shape_plain : plain c = true -> esc_shape c [c]
| shape_short e : plain c = false -> short_escape c = Some e -> esc_shape c [BS; e]
| shape_u4 : plain c = false -> short_escape c = None -> c < 65536 ->
    esc_shape c (u_escape c)
| shape_pair : 65536 <= c -> esc_shape c (u_escape (hi c) ++ u_escape (lo c)).

(** The code point read back for one character written by [esc_char];
    it is the character itself for every code point of a [str]. *)
Definition wrap (c : N) : N :=
  if c <? 65536 then c else join_surrogates (hi c) (lo c).

(** What [json.loads] returns for the serialization of a string: a
    high surrogate followed by a low one is read back as the single
    code point of the pair. *)
Fixpoint norm (s : pystr) : pystr :=
  match s with
  | [] => []
  | c :: r =>
      if is_high c then
        match r with
        | c' :: r' =>
            if is_low c' then join_surrogates c c' :: norm r' else c :: norm r
        | [] => [c]
        end
      else wrap c :: norm r
  end.

(** Whether a pending high surrogate finds a \u escape next. *)
Definition u_ahead (X : pystr) : bool :=
  match X with
  | b :: u :: _ => (b =? BS) && (u =? 117)
  | _ => false
  end.

(** Strings that survive the round trip unchanged: code points in
    range, and no high surrogate directly before a low one.  These are
    the strings a JSON or UTF-8 decoder can produce. *)
Fixpoint json_safe (s : pystr) : bool :=
  match s with
  | [] => true
  | c :: r =>
      (c <? 1114112)
      && (negb (is_high c)
          || match r with c' :: _ => negb (is_low c') | [] => true end)
      && json_safe r
  end.

Definition norm_item (kv : pystr * pystr) : pystr * pystr :=
  (norm (fst kv), norm (snd kv)).

(** The serialization of the items [kv :: d], read from just after the
    opening quote of the first key, followed by [rest]. *)
Fixpoint ser_items (kv : pystr * pystr) (d : dict) (rest : pystr) : pystr :=
  escape (fst kv) ++ DQ :: 58 :: 32 :: DQ :: escape (snd kv) ++ DQ ::
  match d with
  | [] => rest
  | kv' :: d' => 44 :: 32 :: DQ :: ser_items kv' d' rest
  end.

End JsonRead.

Module Occurs.
Import Json JsonRead.

(** What is left of [pat] to match once all of [a] has been read:
    [None] on a mismatch inside [a]. *)
Fixpoint residue (pat a : pystr) : option pystr :=
  match pat, a with
  | [], _ => Some []
  | _ :: _, [] => Some pat
  | p :: pat', c :: a' => if p =? c then residue pat' a' else None
  end.

(** The residues of the attempts that start inside [a]. *)
Fixpoint residues (pat a : pystr) : list pystr :=
  match a with
  | [] => []
  | _ :: a' =>
      match residue pat a with
      | Some r => [r]
      | None => []
      end ++ residues pat a'
  end.

(** The marker without its opening quote. *)
Definition MARKER_TAIL : pystr := Eval vm_compute in tl STATUS_TOKEN.

End Occurs.

Module Wire.
Import Json JsonRead Occurs.

Definition HEAD : pystr :=
  Eval vm_compute in (py "data: {" ++ DQ :: py "agent" ++ DQ :: py ": " ++ [DQ]).
Definition MID (status field : pystr) : pystr :=
  py ", " ++ DQ :: py "status" ++ DQ :: py ": " ++ DQ :: status ++ DQ ::
  py ", " ++ DQ :: field ++ DQ :: py ": " ++ [DQ].
Definition MID_TOKEN : pystr := Eval vm_compute in MID (py "token") (py "token").
Definition MID_DONE : pystr := Eval vm_compute in MID (py "done") (py "output").
Definition MID_ERROR : pystr := Eval vm_compute in MID (py "error") (py "error").
Definition TAIL : pystr := Eval vm_compute in (py "}" ++ [LF; LF]).

End Wire.

Module Trace.
Import Json JsonRead Occurs Wire.

(** The tokens the loop of [llm_stream] forwards from the chunks of a
    backend stream, and the exception that interrupts it, if any. *)
Fixpoint forwarded (chunks : list chunk) : list pystr * option exn :=
  match chunks with
  | [] => ([], None)
  | c :: r =>
      match c with
      | [] => ([], Some (IndexError (py "list index out of range")))
      | Some t :: _ =>
          if truthy t then (t :: fst (forwarded r), snd (forwarded r))
          else forwarded r
      | None :: _ => forwarded r
      end
  end.

(** The tokens one backend call gets through, and the exception that
    ends it, if any. *)
Definition outcome (r : result token_stream) : list pystr * option exn :=
  match r with
  | Ok (chunks, final) =>
      (fst (forwarded chunks),
       match snd (forwarded chunks) with
       | Some e => Some e
       | None => final
       end)
  | Raise e => ([], Some e)
  end.

Definition last_event (k : pystr) (o : list pystr * option exn) : dict :=
  match snd o with
  | None => ev_done k (join [] (fst o))
  | Some e => ev_error k (str_exn e)
  end.

Definition step_events (k : pystr) (o : list pystr * option exn) : list dict :=
  map (ev_token k) (fst o) ++ [last_event k o].

Definition emit (evs : list dict) : list effect := map (fun ev => Yield (sse ev)) evs.

End Trace.

Module Run.
Import Json JsonRead Occurs Wire Trace.

Definition step_outcome (env : Env) (client : AsyncOpenAI) (system user : pystr)
  : list pystr * option exn :=
  outcome (chat_completions_create env client (create_args env system user)).

(** The text the orchestrator collects from one step. *)
Definition read_back (o : list pystr * option exn) : pystr :=
  join [] (map norm (fst o)).

(** The events of one step and its effects: [running], the backend
    call, the tokens, the closing event. *)
Definition block (k : pystr) (o : list pystr * option exn) : list dict :=
  ev_running k :: step_events k o.

Definition step (env : Env) (k system user : pystr) (o : list pystr * option exn)
  : list effect :=
  Yield (sse (ev_running k)) :: Create (create_args env system user) ::
  emit (step_events k o).

(** The four steps of a run that got past extraction and client
    set-up: prompts and outcomes, each built from the texts read back
    before. *)
Record steps : Type := {
  p1 : pystr; o1 : list pystr * option exn;
  p2 : pystr; o2 : list pystr * option exn;
  p3 : pystr; o3 : list pystr * option exn;
  p4 : pystr; o4 : list pystr * option exn
}.

Definition steps_of (env : Env) (client : AsyncOpenAI) (linkedin_text resume : pystr)
  : steps :=
  let rb := resume_block_of resume in
  let p1 := summary_prompt linkedin_text in
  let o1 := step_outcome env client SYS_SUMMARIZER p1 in
  let p2 := research_prompt (read_back o1) in
  let o2 := step_outcome env client SYS_RESEARCHER p2 in
  let p3 := eval_prompt rb (read_back o1) (read_back o2) in
  let o3 := step_outcome env client SYS_EVALUATOR p3 in
  let p4 := strategy_prompt rb (read_back o1) (read_back o2) (read_back o3) in
  let o4 := step_outcome env client SYS_STRATEGIST p4 in
  {| p1 := p1; o1 := o1; p2 := p2; o2 := o2; p3 := p3; o3 := o3; p4 := p4; o4 := o4 |}.

Definition K1 : pystr := py "profile_summary".
Definition K2 : pystr := py "deep_research".
Definition K3 : pystr := py "fitness_eval".
Definition K4 : pystr := py "strategy".

Definition trace_of (env : Env) (s : steps) : list effect :=
  step env K1 SYS_SUMMARIZER (p1 s) (o1 s) ++
  step env K2 SYS_RESEARCHER (p2 s) (o2 s) ++
  step env K3 SYS_EVALUATOR (p3 s) (o3 s) ++
  step env K4 SYS_STRATEGIST (p4 s) (o4 s) ++ [Yield DONE].

Definition events_of (s : steps) : list dict :=
  block K1 (o1 s) ++ block K2 (o2 s) ++ block K3 (o3 s) ++ block K4 (o4 s).

(** The resume text the run works with. *)
Definition effective_resume (env : Env) (resume resume_pdf : pystr) : result pystr :=
  if truthy resume_pdf then extract_pdf_text env resume_pdf else Ok resume.

Definition abort_events (msg : pystr) : list dict :=
  map (fun k => ev_error k msg) AGENT_KEYS.

End Run.


Module Protocol.
Import Json JsonRead Trace Run.


Definition status_is (st : pystr) (ev : dict) : bool :=
  match get (py "status") ev with
  | Some s => str_eqb s st
  | None => false
  end.


(** The values of one field, over the events that have it. *)
Definition field (name : pystr) (evs : list dict) : list pystr :=
  flat_map (fun ev => match get name ev with Some v => [v] | None => [] end) evs.

Definition tokens_of (evs : list dict) : list pystr :=
  field (py "token") (filter (status_is (py "token")) evs).

Definition outputs_of (evs : list dict) : list pystr :=
  field (py "output") (filter (status_is (py "done")) evs).


Definition is_closing (k : pystr) (ev : dict) : Prop :=
  (exists out, ev = ev_done k out) \/ (exists msg, ev = ev_error k msg).





(** The content of the user message of a backend call. *)
Definition user_of (req : request) : option pystr :=
  get (py "user") (messages req).

(** The user prompt of the run's second backend call, if it made one. *)
Definition step2_prompt (run : gen unit) : option pystr :=
  match nth_error (Gen.calls (fst run)) 1 with
  | Some req => user_of req
  | None => None
  end.

(** [t or ""] for the text of one page. *)
Definition or_empty (t : option pystr) : pystr :=
  match t with
  | Some s => s
  | None => []
  end.

End Protocol.

(** ** Sample environments *)

Module Sample.
Import Json.

Definition environ (name : pystr) : option pystr :=
  if str_eqb name (py "OPENAI_API_KEY") then Some (py "sk-test") else None.

(** A backend that answers every call with two tokens. *)
Definition two_tokens (client : AsyncOpenAI) (req : request) : result token_stream :=
  Ok ([[Some (py "Hello")]; [None]; [Some (py ", Jane")]], None).

(** A backend whose stream breaks after one token. *)
Definition broken_stream (client : AsyncOpenAI) (req : request)
  : result token_stream :=
  Ok ([[Some (py "Hel")]], Some (OtherError (py "Connection error."))).

(** A one-page document whose text is the payload itself. *)
Definition one_page (b : list N) : result (list (result (option pystr))) :=
  Ok [Ok (Some b)].

Definition env_ok : Env := {|
  pypdf_installed := true;
  b64decode := fun s => Ok s;
  PdfReader := one_page;
  getenv := environ;
  chat_completions_create := two_tokens
|}.

Definition env_broken_stream : Env := {|
  pypdf_installed := true;
  b64decode := fun s => Ok s;
  PdfReader := one_page;
  getenv := environ;
  chat_completions_create := broken_stream
|}.


(** A document without pages. *)
Definition env_no_pages : Env := {|
  pypdf_installed := true;
  b64decode := fun s => Ok s;
  PdfReader := fun _ => Ok [];
  getenv := environ;
  chat_completions_create := two_tokens
|}.


End Sample.


(** ** The health route *)

Definition health (env : Env) : Json.dict :=
  [(py "status", py "ok"); (py "model", MODEL env)].

(** ** Framing of the stream *)

Module Framing.

(** The characters from space to tilde. *)
Definition printable (c : N) : Prop := 32 <= c <= 126.

(** One record of the event stream: [data: ], one line of printable
    characters, a blank line. *)
Definition framed (chunk : pystr) : Prop :=
  exists payload,
    chunk = py "data: " ++ payload ++ [LF; LF] /\ Forall printable payload.

(** Nothing to trim at either end. *)
Definition trimmed (s : pystr) : Prop := lstrip s = s /\ rstrip s = s.

(** The system message of a backend call. *)
Definition system_of (req : request) : option pystr :=
  Json.get (py "system") (messages req).

End Framing.


(** * Lemmas *)

Module JsonFacts.
Import Json JsonRead Occurs Wire Trace Run.

Ltac nlia := zify; Z.to_euclidean_division_equations; lia.

Ltac bool_to_prop :=
  repeat match goal with
  | H : andb _ _ = true |- _ => apply andb_true_iff in H; destruct H
  | H : andb _ _ = false |- _ => apply andb_false_iff in H
  | H : orb _ _ = false |- _ => apply orb_false_iff in H; destruct H
  | H : negb _ = true |- _ => apply negb_true_iff in H
  | H : negb _ = false |- _ => apply negb_false_iff in H
  | H : (_ <=? _) = true |- _ => apply N.leb_le in H
  | H : (_ <=? _) = false |- _ => apply N.leb_gt in H
  | H : (_ <? _) = true |- _ => apply N.ltb_lt in H
  | H : (_ <? _) = false |- _ => apply N.ltb_ge in H
  | H : (_ =? _) = true |- _ => apply N.eqb_eq in H
  | H : (_ =? _) = false |- _ => apply N.eqb_neq in H
  end.

(** Decides a comparison between arithmetic terms from the linear facts
    in the context. *)
Ltac decide_cmp :=
  repeat match goal with
  | |- context [?a <=? ?b] =>
      first [ replace (a <=? b) with true by (symmetry; apply N.leb_le; nlia)
            | replace (a <=? b) with false by (symmetry; apply N.leb_gt; nlia) ]
  | |- context [?a <? ?b] =>
      first [ replace (a <? b) with true by (symmetry; apply N.ltb_lt; nlia)
            | replace (a <? b) with false by (symmetry; apply N.ltb_ge; nlia) ]
  | |- context [?a =? ?b] =>
      first [ replace (a =? b) with true by (symmetry; apply N.eqb_eq; nlia)
            | replace (a =? b) with false by (symmetry; apply N.eqb_neq; nlia) ]
  end.

Lemma hexdigit_ge d : 48 <= hexdigit d.
Proof. unfold hexdigit. destruct (d <? 10); lia. Qed.

Lemma hexval_hexdigit d : d < 16 -> hexval (hexdigit d) = Some d.
Proof.
  intros H. unfold hexval, hexdigit.
  destruct (N.ltb_spec d 10); decide_cmp; cbn [andb]; f_equal; lia.
Qed.

Lemma unhex4_hexdigits n : n < 65536 ->
  unhex4 (hexdigit (n / 4096)) (hexdigit ((n / 256) mod 16))
         (hexdigit ((n / 16) mod 16)) (hexdigit (n mod 16)) = Some n.
Proof.
  intros H. unfold unhex4.
  rewrite !hexval_hexdigit by nlia.
  f_equal. nlia.
Qed.

Lemma land_1023 x : N.land x 1023 = x mod 1024.
Proof. change 1023 with (N.ones 10). rewrite N.land_ones. reflexivity. Qed.

Lemma lor_low_bits (base y : N) :
  base mod 1024 = 0 -> y < 1024 -> N.lor base y = base + y.
Proof.
  intros Hb Hy.
  rewrite <- N.lxor_lor, <- N.add_nocarry_lxor; auto;
  apply N.bits_inj_0; intros i; rewrite N.land_spec;
  destruct (N.ltb_spec i 10) as [Hi | Hi].
  1,3: replace (N.testbit base i) with false; auto;
    symmetry; rewrite <- (N.mod_pow2_bits_low base 10 i Hi);
    change (2 ^ 10) with 1024; rewrite Hb; apply N.bits_0.
  1,2: replace (N.testbit y i) with false by
      (symmetry; destruct (N.eq_dec y 0) as [-> | Hy0];
       [ apply N.bits_0
       | apply N.bits_above_log2; apply N.lt_le_trans with 10; auto;
         apply N.log2_lt_pow2; [lia | exact Hy] ]);
    apply andb_false_r.
Qed.

Lemma hi_eq c : hi c = 55296 + ((c - 65536) / 1024) mod 1024.
Proof.
  unfold hi. rewrite land_1023, N.shiftr_div_pow2.
  change (2 ^ 10) with 1024.
  apply lor_low_bits; [reflexivity | nlia].
Qed.

Lemma lo_eq c : lo c = 56320 + (c - 65536) mod 1024.
Proof.
  unfold lo. rewrite land_1023. apply lor_low_bits; [reflexivity | nlia].
Qed.

Lemma hi_range c : 55296 <= hi c <= 56319.
Proof. rewrite hi_eq. nlia. Qed.

Lemma lo_range c : 56320 <= lo c <= 57343.
Proof. rewrite lo_eq. nlia. Qed.

Lemma join_hi_lo c : 65536 <= c -> c < 1114112 -> join_surrogates (hi c) (lo c) = c.
Proof.
  intros H1 H2. unfold join_surrogates. rewrite hi_eq, lo_eq.
  rewrite N.shiftl_mul_pow2. change (2 ^ 10) with 1024.
  replace (55296 + ((c - 65536) / 1024) mod 1024 - 55296)
    with (((c - 65536) / 1024) mod 1024) by nlia.
  replace (56320 + (c - 65536) mod 1024 - 56320)
    with ((c - 65536) mod 1024) by nlia.
  rewrite lor_low_bits; [nlia | | nlia].
  apply N.Div0.mod_mul.
Qed.

Lemma esc_char_shape c : esc_shape c (esc_char c).
Proof.
  unfold esc_char.
  destruct (plain c) eqn:Hp; [now constructor|].
  destruct (short_escape c) eqn:Hs; [now constructor|].
  destruct (N.ltb_spec c 65536); [now constructor|].
  now apply shape_pair.
Qed.

Lemma scan_plain c X : plain c = true -> scanstring (c :: X) = push c (scanstring X).
Proof.
  unfold plain, DQ, BS. intros H. bool_to_prop.
  cbn [scanstring]. unfold DQ, BS. decide_cmp. reflexivity.
Qed.

Lemma short_escape_inv c e : short_escape c = Some e ->
  (e =? 117) = false /\ unescape e = Some c /\ c <= 92.
Proof.
  unfold short_escape, DQ, BS.
  repeat match goal with
  | |- context [if ?c =? ?k then _ else _] =>
      destruct (N.eqb_spec c k); [subst; intros [= <-]; repeat split; try reflexivity; lia|]
  end.
  discriminate.
Qed.

Lemma scan_short c e X : short_escape c = Some e ->
  scanstring (BS :: e :: X) = push c (scanstring X).
Proof.
  intros H. destruct (short_escape_inv _ _ H) as (H1 & H2 & _).
  cbn [scanstring]. change (BS =? DQ) with false. rewrite N.eqb_refl.
  cbv iota. rewrite H1, H2. reflexivity.
Qed.

Lemma scan_u4 n X : n < 65536 -> is_high n = false ->
  scanstring (u_escape n ++ X) = push n (scanstring X).
Proof.
  intros Hn Hh. unfold u_escape, hex4. cbn [app scanstring].
  change (BS =? DQ) with false. rewrite N.eqb_refl. cbv iota.
  change (117 =? 117) with true. cbv iota.
  rewrite unhex4_hexdigits by assumption. rewrite Hh. reflexivity.
Qed.

Lemma scan_high_alone n X : n < 65536 -> is_high n = true -> u_ahead X = false ->
  scanstring (u_escape n ++ X) = push n (scanstring X).
Proof.
  intros Hn Hh Hu. unfold u_escape, hex4. cbn [app scanstring].
  change (BS =? DQ) with false. rewrite N.eqb_refl. cbv iota.
  change (117 =? 117) with true. cbv iota.
  rewrite unhex4_hexdigits by assumption. rewrite Hh.
  destruct X as [|b [|u r3]]; try reflexivity.
  cbn [u_ahead] in Hu. rewrite Hu. reflexivity.
Qed.

Lemma scan_high_u4 n m Y : n < 65536 -> is_high n = true -> m < 65536 ->
  scanstring (u_escape n ++ u_escape m ++ Y) =
    if is_low m then push (join_surrogates n m) (scanstring Y)
    else push n (scanstring (u_escape m ++ Y)).
Proof.
  intros Hn Hh Hm. unfold u_escape at 1. unfold hex4 at 1.
  cbn [app scanstring].
  change (BS =? DQ) with false. rewrite N.eqb_refl. cbv iota.
  change (117 =? 117) with true. cbv iota.
  rewrite unhex4_hexdigits by assumption. rewrite Hh.
  unfold u_escape, hex4. cbn [app].
  rewrite N.eqb_refl. change (117 =? 117) with true. cbn [andb].
  rewrite unhex4_hexdigits by assumption. reflexivity.
Qed.

Lemma u_ahead_other b Y : b <> BS -> u_ahead (b :: Y) = false.
Proof.
  intros H. destruct Y; cbn [u_ahead]; auto.
  apply N.eqb_neq in H. rewrite H. reflexivity.
Qed.

Lemma plain_inv c : plain c = true -> 32 <= c <= 126 /\ c <> DQ /\ c <> BS.
Proof. unfold plain. intros H. bool_to_prop. repeat split; auto. Qed.

Lemma push_some c s rest r :
  r = Some (s, rest) -> push c r = Some (c :: s, rest).
Proof. intros ->. reflexivity. Qed.

Lemma not_high_small c : c <= 126 -> is_high c = false.
Proof. intros. unfold is_high. decide_cmp. reflexivity. Qed.

Lemma not_low_small c : c <= 126 -> is_low c = false.
Proof. intros. unfold is_low. decide_cmp. reflexivity. Qed.

Lemma wrap_small c : c < 65536 -> wrap c = c.
Proof. intros. unfold wrap. decide_cmp. reflexivity. Qed.

Lemma is_high_hi c : is_high (hi c) = true.
Proof. pose proof (hi_range c). unfold is_high. decide_cmp. reflexivity. Qed.

Lemma is_low_lo c : is_low (lo c) = true.
Proof. pose proof (lo_range c). unfold is_low. decide_cmp. reflexivity. Qed.

Lemma is_low_hi c : is_low (hi c) = false.
Proof. pose proof (hi_range c). unfold is_low. decide_cmp. reflexivity. Qed.

(** Reading back an escaped string, up to its closing quote. *)
Lemma scan_escape_len n : forall s rest, (List.length s <= n)%nat ->
  scanstring (escape s ++ DQ :: rest) = Some (norm s, rest).
Proof.
  induction n as [|n IH]; intros s rest Hlen.
  - destruct s; [|cbn in Hlen; lia]. cbn. reflexivity.
  - destruct s as [|c r]; [cbn; reflexivity|].
    cbn [List.length] in Hlen.
    assert (IHr : forall rest, scanstring (escape r ++ DQ :: rest) = Some (norm r, rest))
      by (intros; apply IH; lia).
    cbn [escape]. rewrite <- app_assoc.
    destruct (esc_char_shape c) as [Hp | e Hp He | Hp He Hc | Hc].
    + (* plain *)
      destruct (plain_inv _ Hp) as (Hr & _ & _).
      cbn [app]. rewrite scan_plain by assumption.
      cbn [norm]. rewrite not_high_small, wrap_small by lia.
      apply push_some, IHr.
    + (* two-character escape *)
      destruct (short_escape_inv _ _ He) as (_ & _ & Hr).
      cbn [app]. rewrite (scan_short c) by assumption.
      cbn [norm]. rewrite not_high_small, wrap_small by lia.
      apply push_some, IHr.
    + (* \uXXXX *)
      destruct (is_high c) eqn:Hh.
      * destruct r as [|c' r'].
        { cbn [escape app norm]. rewrite Hh.
          assert (Hu : u_ahead (DQ :: rest) = false)
            by (apply u_ahead_other; discriminate).
          rewrite scan_high_alone by assumption.
          cbn [scanstring]. change (DQ =? DQ) with true. reflexivity. }
        cbn [List.length] in Hlen.
        assert (IHr' : forall rest,
                   scanstring (escape r' ++ DQ :: rest) = Some (norm r', rest))
          by (intros; apply IH; lia).
        specialize (IHr rest). cbn [escape] in IHr. rewrite <- app_assoc in IHr.
        cbn [escape norm]. rewrite Hh. rewrite <- app_assoc.
        destruct (esc_char_shape c') as [Hp' | e' Hp' He' | Hp' He' Hc' | Hc'].
        -- destruct (plain_inv _ Hp') as (Hr' & _ & Hb').
           rewrite not_low_small by lia.
           assert (Hu : u_ahead ([c'] ++ escape r' ++ DQ :: rest) = false)
             by (cbn [app]; apply u_ahead_other; assumption).
           rewrite scan_high_alone by assumption.
           apply push_some, IHr.
        -- destruct (short_escape_inv _ _ He') as (Hu' & _ & Hr').
           rewrite not_low_small by lia.
           assert (Hu : u_ahead ([BS; e'] ++ escape r' ++ DQ :: rest) = false)
             by (cbn [app u_ahead]; rewrite Hu'; apply andb_false_r).
           rewrite scan_high_alone by assumption.
           apply push_some, IHr.
        -- rewrite scan_high_u4 by assumption.
           destruct (is_low c').
           ++ apply push_some, IHr'.
           ++ apply push_some, IHr.
        -- replace (is_low c') with false
             by (symmetry; unfold is_low; decide_cmp; reflexivity).
           pose proof (hi_range c').
           rewrite <- app_assoc in IHr |- *.
           rewrite scan_high_u4 by (auto; lia).
           rewrite is_low_hi. apply push_some, IHr.
      * rewrite scan_u4 by assumption.
        replace (norm (c :: r)) with (c :: norm r)
          by (cbn [norm]; rewrite Hh, wrap_small by assumption; reflexivity).
        apply push_some, IHr.
    + (* a surrogate pair *)
      pose proof (hi_range c). pose proof (lo_range c).
      rewrite <- app_assoc.
      rewrite scan_high_u4 by (try apply is_high_hi; lia).
      rewrite is_low_lo.
      replace (norm (c :: r)) with (join_surrogates (hi c) (lo c) :: norm r).
      * apply push_some, IHr.
      * cbn [norm]. unfold wrap, is_high. decide_cmp. reflexivity.
Qed.

Lemma scan_escape s rest :
  scanstring (escape s ++ DQ :: rest) = Some (norm s, rest).
Proof. apply (scan_escape_len (List.length s)). lia. Qed.

Lemma norm_safe s : json_safe s = true -> norm s = s.
Proof.
  induction s as [|c r IH]; [reflexivity|].
  cbn [json_safe]. intros H. bool_to_prop. cbn [norm].
  destruct (is_high c) eqn:Hh.
  - destruct r as [|c' r']; [reflexivity|].
    cbn [negb orb] in *. bool_to_prop.
    match goal with H : is_low c' = false |- _ => rewrite H end.
    f_equal. auto.
  - f_equal; [|auto].
    unfold wrap. destruct (N.ltb_spec c 65536); [reflexivity|].
    apply join_hi_lo; assumption.
Qed.

Lemma join_surrogates_eq c c' :
  is_high c = true -> is_low c' = true ->
  join_surrogates c c' = 65536 + (c - 55296) * 1024 + (c' - 56320).
Proof.
  unfold is_high, is_low, join_surrogates. intros H H'. bool_to_prop.
  rewrite N.shiftl_mul_pow2. change (2 ^ 10) with 1024.
  rewrite lor_low_bits; [lia | apply N.Div0.mod_mul | lia].
Qed.

Lemma esc_char_surrogate c :
  55296 <= c <= 57343 -> esc_char c = u_escape c.
Proof.
  intros H. unfold esc_char, plain, short_escape, DQ, BS.
  decide_cmp. reflexivity.
Qed.

(** A surrogate pair and the code point it stands for are written the
    same way. *)
Lemma esc_char_join c c' :
  is_high c = true -> is_low c' = true ->
  esc_char (join_surrogates c c') = esc_char c ++ esc_char c'.
Proof.
  intros H H'. rewrite (join_surrogates_eq c c' H H').
  unfold is_high, is_low in H, H'. bool_to_prop.
  rewrite (esc_char_surrogate c), (esc_char_surrogate c') by lia.
  set (x := 65536 + (c - 55296) * 1024 + (c' - 56320)).
  assert (Hx : 65536 <= x) by (unfold x; lia).
  assert (Hhi : hi x = c) by (rewrite hi_eq; unfold x; nlia).
  assert (Hlo : lo x = c') by (rewrite lo_eq; unfold x; nlia).
  rewrite <- Hhi, <- Hlo. clearbody x.
  unfold esc_char, plain, short_escape, DQ, BS, hi, lo.
  decide_cmp. reflexivity.
Qed.

Lemma esc_char_wrap c : esc_char (wrap c) = esc_char c.
Proof.
  unfold wrap. destruct (N.ltb_spec c 65536) as [H | H]; [reflexivity|].
  rewrite esc_char_join by (apply is_high_hi || apply is_low_lo).
  pose proof (hi_range c). pose proof (lo_range c).
  rewrite !esc_char_surrogate by lia.
  unfold esc_char, plain, short_escape, DQ, BS, hi, lo.
  decide_cmp. reflexivity.
Qed.

Lemma escape_norm_len n : forall s, (List.length s <= n)%nat ->
  escape (norm s) = escape s.
Proof.
  induction n as [|n IH]; intros s Hlen.
  - destruct s; [reflexivity | cbn in Hlen; lia].
  - destruct s as [|c r]; [reflexivity|]. cbn [List.length] in Hlen.
    cbn [norm]. destruct (is_high c) eqn:Hh.
    + destruct r as [|c' r']; [reflexivity|]. cbn [List.length] in Hlen.
      destruct (is_low c') eqn:Hl.
      * cbn [escape]. rewrite esc_char_join, IH by (assumption || lia).
        rewrite <- app_assoc. reflexivity.
      * change (escape (c :: norm (c' :: r')) = escape (c :: c' :: r')).
        cbn [escape]. f_equal.
        change (escape (norm (c' :: r')) = escape (c' :: r')).
        apply IH. cbn [List.length]. lia.
    + cbn [escape]. rewrite esc_char_wrap, IH by lia. reflexivity.
Qed.

(** Normalizing a string does not change how it is written. *)
Lemma escape_norm s : escape (norm s) = escape s.
Proof. apply (escape_norm_len (List.length s)). lia. Qed.

Lemma escape_app a b : escape (a ++ b) = escape a ++ escape b.
Proof.
  induction a as [|c a IH]; [reflexivity|].
  cbn [app escape]. rewrite IH, app_assoc. reflexivity.
Qed.

Lemma join_nil_cons a m : join [] (a :: m) = a ++ join [] m.
Proof. destruct m; cbn [join app]; [rewrite app_nil_r|]; reflexivity. Qed.

Lemma escape_join_norm l : escape (join [] (map norm l)) = escape (join [] l).
Proof.
  induction l as [|a l IH]; [reflexivity|].
  cbn [map]. rewrite !join_nil_cons, !escape_app, IH, escape_norm. reflexivity.
Qed.

Lemma join_items kv d rest :
  join (py ", ") (map dumps_item (kv :: d)) ++ rest = DQ :: ser_items kv d rest.
Proof.
  revert kv. induction d as [|kv' d IH]; intros [k v].
  - cbn [map join ser_items fst snd]. unfold dumps_item, dumps_str.
    cbn [fst snd]. change (py ": ") with [58; 32].
    cbn [app]. rewrite <- !app_assoc. cbn [app]. rewrite <- !app_assoc.
    reflexivity.
  - specialize (IH kv').
    change (map dumps_item ((k, v) :: kv' :: d))
      with (dumps_item (k, v) :: map dumps_item (kv' :: d)).
    cbn [join]. cbn [map] in IH |- *.
    rewrite <- !app_assoc, IH.
    cbn [ser_items fst snd]. unfold dumps_item, dumps_str.
    cbn [fst snd]. change (py ": ") with [58; 32]. change (py ", ") with [44; 32].
    cbn [app]. rewrite <- !app_assoc. cbn [app]. rewrite <- !app_assoc.
    reflexivity.
Qed.

Lemma dumps_items kv d rest :
  dumps (kv :: d) ++ rest = 123 :: DQ :: ser_items kv d (125 :: rest).
Proof.
  unfold dumps. change (py "{") with [123]. change (py "}") with [125].
  cbn [app]. rewrite <- app_assoc, join_items. reflexivity.
Qed.

Lemma members_last fuel k v rest :
  members (S fuel) (escape k ++ DQ :: 58 :: 32 :: DQ :: escape v ++ DQ :: 125 :: rest)
  = Some ([(norm k, norm v)], rest).
Proof.
  cbn [members]. rewrite scan_escape.
  cbn -[scanstring escape norm members].
  rewrite scan_escape. reflexivity.
Qed.

Lemma members_more fuel k v Y :
  members (S fuel)
    (escape k ++ DQ :: 58 :: 32 :: DQ :: escape v ++ DQ :: 44 :: 32 :: DQ :: Y)
  = match members fuel Y with
    | Some (m, rest) => Some ((norm k, norm v) :: m, rest)
    | None => None
    end.
Proof.
  cbn [members]. rewrite scan_escape.
  cbn -[scanstring escape norm members].
  rewrite scan_escape. reflexivity.
Qed.

Lemma members_ser d : forall kv fuel rest, (List.length d < fuel)%nat ->
  members fuel (ser_items kv d (125 :: rest)) = Some (map norm_item (kv :: d), rest).
Proof.
  induction d as [|kv' d IH]; intros [k v] fuel rest Hf;
    (destruct fuel as [|fuel]; [cbn in Hf; lia|]); cbn [ser_items fst snd].
  - apply members_last.
  - rewrite members_more, IH by (cbn in Hf; lia). reflexivity.
Qed.

Lemma ser_items_length kv d rest : (List.length d < List.length (ser_items kv d rest))%nat.
Proof.
  revert kv. induction d as [|kv' d IH]; intros kv; cbn [ser_items];
    rewrite length_app; cbn [List.length]; rewrite length_app; cbn [List.length].
  - lia.
  - specialize (IH kv'). lia.
Qed.

(** [json.loads] reads a serialized object back, whatever white space
    follows it, as the object with each string normalized. *)
Lemma loads_dumps kv d : 
  loads (dumps (kv :: d) ++ [LF; LF]) = Ok (map norm_item (kv :: d)).
Proof.
  rewrite dumps_items. unfold loads.
  cbn -[members ser_items List.length].
  rewrite members_ser by apply ser_items_length.
  reflexivity.
Qed.

End JsonFacts.

Module Substring.
Import Json JsonRead Occurs Wire Trace Run JsonFacts.

Lemma starts_with_app pat : forall a x,
  starts_with pat (a ++ x) =
    match residue pat a with
    | Some r => starts_with r x
    | None => false
    end.
Proof.
  induction pat as [|p pat IH]; intros a x.
  - destruct a; reflexivity.
  - destruct a as [|c a]; [reflexivity|].
    cbn [app starts_with residue]. rewrite IH.
    destruct (p =? c); reflexivity.
Qed.

Lemma contains_app pat a x :
  contains pat (a ++ x) =
    existsb (fun r => starts_with r x) (residues pat a) || contains pat x.
Proof.
  induction a as [|c a IH]; [reflexivity|].
  change (contains pat ((c :: a) ++ x))
    with (starts_with pat ((c :: a) ++ x) || contains pat (a ++ x)).
  rewrite starts_with_app, IH. cbn [residues].
  rewrite existsb_app, orb_assoc. f_equal. f_equal.
  destruct (residue pat (c :: a)); cbn [existsb]; [apply eq_sym, orb_false_r | reflexivity].
Qed.

Lemma residues_absent p pat a :
  Forall (fun c => c <> p) a -> residues (p :: pat) a = [].
Proof.
  induction 1 as [|c a Hc _ IH]; [reflexivity|].
  cbn [residues residue]. rewrite IH.
  replace (p =? c) with false by (symmetry; apply N.eqb_neq; congruence).
  reflexivity.
Qed.

Lemma u_escape_no_quote n : Forall (fun c => c <> DQ) (u_escape n).
Proof.
  unfold u_escape, hex4.
  repeat constructor; try discriminate;
    match goal with |- hexdigit ?d <> _ =>
      pose proof (hexdigit_ge d); unfold DQ; lia end.
Qed.

Lemma starts_with_esc_char p pat c x :
  p <> BS -> starts_with (p :: pat) (esc_char c ++ x) = true ->
  plain c = true /\ c = p /\ starts_with pat x = true.
Proof.
  intros Hp. destruct (esc_char_shape c) as [Hc | e _ _ | _ _ _ | _];
    cbn [app starts_with u_escape].
  - intros H. apply andb_true_iff in H. destruct H as [H1 H2].
    apply N.eqb_eq in H1. subst. auto.
  - apply N.eqb_neq in Hp. rewrite Hp. discriminate.
  - apply N.eqb_neq in Hp. rewrite Hp. discriminate.
  - apply N.eqb_neq in Hp. rewrite Hp. discriminate.
Qed.

(** An escaped string directly followed by a quote starts with a word
    of plain characters only when the string itself does. *)
Lemma starts_with_word w : forall q s x,
  Forall (fun p => plain p = true) w ->
  starts_with (w ++ q) (escape s ++ DQ :: x) = true ->
  exists s', s = w ++ s' /\ starts_with q (escape s' ++ DQ :: x) = true.
Proof.
  induction w as [|p w IH]; intros q s x Hw H.
  - exists s. auto.
  - inversion Hw as [|? ? Hp Hw']; subst.
    destruct (plain_inv _ Hp) as (_ & Hq & Hb).
    destruct s as [|c s].
    + cbn [escape app starts_with] in H.
      replace (p =? DQ) with false in H by (symmetry; apply N.eqb_neq; auto).
      discriminate.
    + cbn [escape] in H. rewrite <- app_assoc in H.
      change ((p :: w) ++ q) with (p :: (w ++ q)) in H.
      apply starts_with_esc_char in H; auto.
      destruct H as (_ & -> & H).
      destruct (IH _ _ _ Hw' H) as (s' & -> & H').
      exists s'. auto.
Qed.

Lemma starts_with_quote q s x :
  starts_with (DQ :: q) (escape s ++ DQ :: x) = true ->
  s = [] /\ starts_with q x = true.
Proof.
  destruct s as [|c s].
  - cbn [escape app starts_with]. rewrite N.eqb_refl. auto.
  - cbn [escape]. rewrite <- app_assoc. intros H.
    apply starts_with_esc_char in H; [|discriminate].
    destruct H as (Hp & -> & _). discriminate.
Qed.

Lemma marker_tail_absent s x :
  starts_with [58] x = false ->
  starts_with MARKER_TAIL (escape s ++ DQ :: x) = false.
Proof.
  intros Hx. destruct (starts_with MARKER_TAIL (escape s ++ DQ :: x)) eqn:H; auto.
  change MARKER_TAIL
    with (py "status" ++ DQ :: 58 :: 32 :: DQ :: py "token" ++ [DQ]) in H.
  apply starts_with_word in H; [|repeat constructor].
  destruct H as (s' & _ & H).
  apply starts_with_quote in H. destruct H as (_ & H).
  destruct x as [|c x]; [discriminate|].
  cbn [starts_with] in H, Hx. apply andb_true_iff in H. destruct H as [H _].
  rewrite H in Hx. discriminate.
Qed.

Lemma residues_no_quote a :
  Forall (fun c => c <> DQ) a -> residues STATUS_TOKEN a = [].
Proof. exact (residues_absent DQ MARKER_TAIL a). Qed.

Lemma residues_esc_char c x :
  starts_with MARKER_TAIL x = false ->
  existsb (fun r => starts_with r x) (residues STATUS_TOKEN (esc_char c)) = false.
Proof.
  intros Hx.
  destruct (esc_char_shape c) as [Hc | e _ _ | _ _ _ | _].
  - destruct (plain_inv _ Hc) as (_ & Hq & _).
    rewrite residues_no_quote; [reflexivity|].
    repeat constructor; assumption.
  - destruct (N.eq_dec e DQ) as [-> | He].
    + change (residues STATUS_TOKEN [BS; DQ]) with [MARKER_TAIL].
      cbn [existsb]. rewrite Hx. reflexivity.
    + rewrite residues_no_quote; [reflexivity|].
      repeat constructor; [discriminate | assumption].
  - rewrite residues_no_quote; [reflexivity|]. apply u_escape_no_quote.
  - rewrite residues_no_quote; [reflexivity|].
    apply Forall_app. split; apply u_escape_no_quote.
Qed.

(** The marker cannot occur inside an escaped string, nor across its
    end, unless a colon follows the closing quote. *)
Lemma contains_escape s x :
  starts_with [58] x = false ->
  contains STATUS_TOKEN (escape s ++ DQ :: x) = contains STATUS_TOKEN (DQ :: x).
Proof.
  intros Hx. induction s as [|c s IH]; [reflexivity|].
  cbn [escape]. rewrite <- app_assoc, contains_app, IH.
  rewrite residues_esc_char; [reflexivity|].
  apply marker_tail_absent, Hx.
Qed.

End Substring.

Module Events.
Import Json JsonRead Occurs Wire Trace Run JsonFacts Substring.

Ltac compute_residues :=
  match goal with
  | |- context [residues ?p ?a] =>
      let r := eval vm_compute in (residues p a) in
      change (residues p a) with r
  end.

(** The four serialized events, with the escaped payloads in place. *)
Lemma sse_running k :
  sse (ev_running k) =
    (py "data: {" ++ DQ :: py "agent" ++ DQ :: py ": " ++ [DQ])
    ++ escape k ++ DQ :: (py ", " ++ DQ :: py "status" ++ DQ :: py ": " ++ DQ ::
       py "running" ++ DQ :: py "}" ++ [LF; LF]).
Proof.
  unfold sse, ev_running. rewrite dumps_items.
  cbn [ser_items fst snd]. generalize (escape k). intros ek.
  vm_compute. reflexivity.
Qed.

Lemma sse_token k t :
  sse (ev_token k t) = HEAD ++ escape k ++ DQ :: MID_TOKEN ++ escape t ++ DQ :: TAIL.
Proof.
  unfold sse, ev_token. rewrite dumps_items.
  cbn [ser_items fst snd]. generalize (escape k) (escape t). intros ek et.
  vm_compute. reflexivity.
Qed.

Lemma sse_done k out :
  sse (ev_done k out) = HEAD ++ escape k ++ DQ :: MID_DONE ++ escape out ++ DQ :: TAIL.
Proof.
  unfold sse, ev_done. rewrite dumps_items.
  cbn [ser_items fst snd]. generalize (escape k) (escape out). intros ek et.
  vm_compute. reflexivity.
Qed.

Lemma sse_error k msg :
  sse (ev_error k msg) = HEAD ++ escape k ++ DQ :: MID_ERROR ++ escape msg ++ DQ :: TAIL.
Proof.
  unfold sse, ev_error. rewrite dumps_items.
  cbn [ser_items fst snd]. generalize (escape k) (escape msg). intros ek et.
  vm_compute. reflexivity.
Qed.

Lemma marker_in_token k t : contains STATUS_TOKEN (sse (ev_token k t)) = true.
Proof.
  rewrite sse_token, contains_app. compute_residues.
  rewrite contains_escape by reflexivity.
  change (DQ :: MID_TOKEN ++ escape t ++ DQ :: TAIL)
    with ((DQ :: MID_TOKEN) ++ escape t ++ DQ :: TAIL).
  rewrite (contains_app _ (DQ :: MID_TOKEN)). compute_residues.
  cbn [existsb starts_with]. apply orb_true_r.
Qed.

Lemma marker_not_in_done k out : contains STATUS_TOKEN (sse (ev_done k out)) = false.
Proof.
  rewrite sse_done, contains_app. compute_residues.
  rewrite contains_escape by reflexivity.
  cbn [existsb]. change (starts_with _ _) with (starts_with MARKER_TAIL (escape k ++ DQ :: MID_DONE ++ escape out ++ DQ :: TAIL)).
  rewrite marker_tail_absent by reflexivity.
  change (DQ :: MID_DONE ++ escape out ++ DQ :: TAIL)
    with ((DQ :: MID_DONE) ++ escape out ++ DQ :: TAIL).
  rewrite (contains_app _ (DQ :: MID_DONE)). compute_residues.
  rewrite contains_escape by reflexivity.
  cbn [existsb].
  change (starts_with _ (escape out ++ _)) with (starts_with MARKER_TAIL (escape out ++ DQ :: TAIL)).
  rewrite marker_tail_absent by reflexivity. reflexivity.
Qed.

Lemma marker_not_in_error k msg :
  contains STATUS_TOKEN (sse (ev_error k msg)) = false.
Proof.
  rewrite sse_error, contains_app. compute_residues.
  rewrite contains_escape by reflexivity.
  cbn [existsb].
  change (starts_with _ _)
    with (starts_with MARKER_TAIL
            (escape k ++ DQ :: MID_ERROR ++ escape msg ++ DQ :: TAIL)).
  rewrite marker_tail_absent by reflexivity.
  change (DQ :: MID_ERROR ++ escape msg ++ DQ :: TAIL)
    with ((DQ :: MID_ERROR) ++ escape msg ++ DQ :: TAIL).
  rewrite (contains_app _ (DQ :: MID_ERROR)). compute_residues.
  rewrite contains_escape by reflexivity.
  cbn [existsb].
  change (starts_with _ (escape msg ++ _))
    with (starts_with MARKER_TAIL (escape msg ++ DQ :: TAIL)).
  rewrite marker_tail_absent by reflexivity. reflexivity.
Qed.

Lemma marker_not_in_running k :
  contains STATUS_TOKEN (sse (ev_running k)) = false.
Proof.
  rewrite sse_running, contains_app. compute_residues.
  rewrite contains_escape by reflexivity.
  cbn [existsb].
  change (starts_with _ (escape k ++ _))
    with (starts_with MARKER_TAIL
            (escape k ++ DQ :: py ", " ++ DQ :: py "status" ++ DQ :: py ": " ++
             DQ :: py "running" ++ DQ :: py "}" ++ [LF; LF])).
  rewrite marker_tail_absent by reflexivity. reflexivity.
Qed.

(** Parsing a token chunk again gives the token back, normalized. *)
Lemma token_read_back k t :
  and_then (loads (skipn 6 (sse (ev_token k t)))) token_of = Ok (norm t).
Proof.
  change (skipn 6 (sse (ev_token k t))) with (dumps (ev_token k t) ++ [LF; LF]).
  unfold ev_token. rewrite loads_dumps.
  cbn [and_then map]. unfold token_of, norm_item. cbn [fst snd].
  change (norm (py "agent")) with (py "agent").
  change (norm (py "status")) with (py "status").
  change (norm (py "token")) with (py "token").
  generalize (norm k) (norm t). intros nk nt.
  vm_compute. reflexivity.
Qed.

End Events.

Module Steps.
Import Json JsonRead Occurs Wire Trace Run JsonFacts Substring Events.

Ltac run_gen :=
  unfold Gen.bind, Gen.lift, Gen.yield, Gen.ret, Gen.perform, Gen.try_except;
  cbn beta iota zeta delta [app fst snd].

Lemma forward_loop k : forall chunks acc,
  for_chunks chunks (forward k) acc =
    (emit (map (ev_token k) (fst (forwarded chunks))),
     match snd (forwarded chunks) with
     | None => Ok (acc ++ fst (forwarded chunks))
     | Some e => Raise e
     end).
Proof.
  induction chunks as [|c r IH]; intros acc.
  - cbn. rewrite app_nil_r. reflexivity.
  - cbn [for_chunks forwarded]. unfold forward at 1.
    destruct c as [|[t|] c']; cbn [chunk_token].
    + reflexivity.
    + destruct (truthy t) eqn:Ht; run_gen; rewrite ?Ht; run_gen; rewrite IH.
      * cbn [fst snd emit map].
        destruct (snd (forwarded r)); [reflexivity|].
        rewrite <- app_assoc. reflexivity.
      * reflexivity.
    + run_gen. rewrite IH. reflexivity.
Qed.

(** What one call of [llm_stream] does: it opens one backend stream,
    forwards its tokens and closes with one [done] or [error] event; it
    never raises. *)
Lemma llm_stream_run env client k system user :
  llm_stream env client k system user =
    (Create (create_args env system user) ::
       emit (step_events k
               (outcome (chat_completions_create env client
                           (create_args env system user)))),
     Ok tt).
Proof.
  unfold llm_stream, step_events, last_event, outcome.
  destruct (chat_completions_create env client (create_args env system user))
    as [[chunks final]|e]; [|reflexivity].
  unfold async_for_stream. cbn [fst snd]. run_gen. rewrite forward_loop.
  unfold emit. rewrite map_app. cbn [map].
  destruct (snd (forwarded chunks)) as [e|].
  - cbn [app]. reflexivity.
  - destruct final as [e|]; cbn [app]; rewrite ?app_nil_r; reflexivity.
Qed.

Lemma capture_token k t acc :
  capture (sse (ev_token k t)) acc = ([Yield (sse (ev_token k t))], Ok (acc ++ [norm t])).
Proof.
  unfold capture. rewrite marker_in_token.
  pose proof (token_read_back k t) as H. unfold and_then in H.
  destruct (loads (skipn 6 (sse (ev_token k t)))) as [d|e]; [|discriminate].
  run_gen. rewrite H. reflexivity.
Qed.

Lemma capture_last k o acc :
  capture (sse (last_event k o)) acc = ([Yield (sse (last_event k o))], Ok acc).
Proof.
  unfold capture, last_event.
  destruct (snd o); rewrite ?marker_not_in_done, ?marker_not_in_error; reflexivity.
Qed.

Lemma relay_events k o : forall acc,
  for_effects (emit (step_events k o)) capture acc =
    (emit (step_events k o), Ok (acc ++ map norm (fst o))).
Proof.
  unfold step_events. generalize (last_event k o) (capture_last k o).
  intros last Hlast.
  induction (fst o) as [|t ts IH]; intros acc.
  - cbn [map app emit for_effects]. rewrite Hlast. run_gen.
    rewrite app_nil_r. reflexivity.
  - cbn [map app emit for_effects]. rewrite capture_token. run_gen.
    fold (emit (map (ev_token k) ts ++ [last])). rewrite IH.
    rewrite <- app_assoc. reflexivity.
Qed.

Lemma pass_on_events evs st :
  for_effects (emit evs) pass_on st = (emit evs, Ok tt).
Proof.
  destruct st. induction evs as [|ev evs IH]; [reflexivity|].
  cbn [emit map for_effects]. unfold pass_on at 1. run_gen.
  fold (emit evs). rewrite IH. reflexivity.
Qed.

(** The orchestrator's loop over one step: every chunk is passed on and
    the tokens are collected as they are read back. *)
Lemma step_captured env client k system user :
  async_for (llm_stream env client k system user) capture [] =
    (Create (create_args env system user) ::
       emit (step_events k
               (outcome (chat_completions_create env client
                           (create_args env system user)))),
     Ok (map norm
           (fst (outcome (chat_completions_create env client
                            (create_args env system user)))))).
Proof.
  rewrite llm_stream_run. unfold async_for. cbn [fst snd for_effects].
  rewrite relay_events. run_gen. rewrite app_nil_r. reflexivity.
Qed.

Lemma step_passed_on env client k system user :
  async_for (llm_stream env client k system user) pass_on tt =
    (Create (create_args env system user) ::
       emit (step_events k
               (outcome (chat_completions_create env client
                           (create_args env system user)))),
     Ok tt).
Proof.
  rewrite llm_stream_run. unfold async_for. cbn [fst snd for_effects].
  rewrite pass_on_events. run_gen. rewrite app_nil_r. reflexivity.
Qed.

End Steps.

Module Pipeline.
Import Json JsonRead Occurs Wire Trace Run JsonFacts Substring Events Steps.

Lemma run_pipeline_steps env l r rp text resume' client :
  extract_pdf_text env l = Ok text ->
  effective_resume env r rp = Ok resume' ->
  get_client env = Ok client ->
  run_pipeline env l r rp = (trace_of env (steps_of env client text resume'), Ok tt).
Proof.
  unfold effective_resume. intros H1 H2 H3.
  unfold run_pipeline. rewrite H1, H2, H3.
  unfold trace_of, steps_of, step, step_outcome, read_back, K1, K2, K3, K4.
  cbn [p1 p2 p3 p4 o1 o2 o3 o4].
  run_gen. rewrite step_captured. run_gen.
  rewrite step_captured. run_gen.
  rewrite step_captured. run_gen.
  rewrite step_passed_on. run_gen.
  rewrite <- ?app_assoc. reflexivity.
Qed.

Lemma fan_out_run msg :
  Gen.bind (fan_out AGENT_KEYS msg) (fun _ => Gen.yield DONE) =
    (emit (abort_events msg) ++ [Yield DONE], Ok tt).
Proof. reflexivity. Qed.

Lemma run_pipeline_no_linkedin env l r rp e :
  extract_pdf_text env l = Raise e ->
  run_pipeline env l r rp =
    (emit (abort_events (py "LinkedIn PDF: " ++ str_exn e)) ++ [Yield DONE], Ok tt).
Proof. intros H. unfold run_pipeline. rewrite H. apply fan_out_run. Qed.

Lemma run_pipeline_no_resume env l r rp text e :
  extract_pdf_text env l = Ok text ->
  effective_resume env r rp = Raise e ->
  run_pipeline env l r rp =
    (emit (abort_events (py "Resume PDF: " ++ str_exn e)) ++ [Yield DONE], Ok tt).
Proof.
  unfold effective_resume. intros H1 H2. unfold run_pipeline. rewrite H1, H2.
  apply fan_out_run.
Qed.

Lemma run_pipeline_no_client env l r rp text resume' e :
  extract_pdf_text env l = Ok text ->
  effective_resume env r rp = Ok resume' ->
  get_client env = Raise e ->
  run_pipeline env l r rp =
    (emit (abort_events (str_exn e)) ++ [Yield DONE], Ok tt).
Proof.
  unfold effective_resume. intros H1 H2 H3. unfold run_pipeline.
  rewrite H1, H2, H3. apply fan_out_run.
Qed.

End Pipeline.


(** * The claims *)

Import Json JsonRead Occurs Wire Trace Run Protocol.
Import JsonFacts Substring Events Steps Pipeline.

Lemma yields_app a b : Gen.yields (a ++ b) = Gen.yields a ++ Gen.yields b.
Proof.
  induction a as [|[c|q] a IH]; cbn [app Gen.yields]; rewrite ?IH; reflexivity.
Qed.

Lemma calls_app a b : Gen.calls (a ++ b) = Gen.calls a ++ Gen.calls b.
Proof.
  induction a as [|[c|q] a IH]; cbn [app Gen.calls]; rewrite ?IH; reflexivity.
Qed.

Lemma yields_emit evs : Gen.yields (emit evs) = map sse evs.
Proof.
  unfold emit. induction evs as [|ev evs IH]; cbn [map Gen.yields];
    rewrite ?IH; reflexivity.
Qed.

Lemma calls_emit evs : Gen.calls (emit evs) = [].
Proof.
  unfold emit. induction evs as [|ev evs IH]; cbn [map Gen.calls];
    rewrite ?IH; reflexivity.
Qed.

Lemma yields_step env k system user o :
  Gen.yields (step env k system user o) = map sse (block k o).
Proof. unfold step, block. cbn [Gen.yields map]. rewrite yields_emit. reflexivity. Qed.

Lemma calls_step env k system user o :
  Gen.calls (step env k system user o) = [create_args env system user].
Proof. unfold step. cbn [Gen.calls]. rewrite calls_emit. reflexivity. Qed.

Lemma yields_trace env s :
  Gen.yields (trace_of env s) = map sse (events_of s) ++ [DONE].
Proof.
  unfold trace_of, events_of. rewrite !yields_app, !yields_step, !map_app.
  rewrite <- !app_assoc. reflexivity.
Qed.

Lemma calls_trace env s :
  Gen.calls (trace_of env s) =
    [create_args env SYS_SUMMARIZER (p1 s); create_args env SYS_RESEARCHER (p2 s);
     create_args env SYS_EVALUATOR (p3 s); create_args env SYS_STRATEGIST (p4 s)].
Proof. unfold trace_of. rewrite !calls_app, !calls_step. reflexivity. Qed.

Lemma sse_not_done ev : sse ev <> DONE.
Proof.
  intros H. apply (f_equal (fun s => nth 6 s 0)) in H.
  cbv in H. discriminate.
Qed.

Lemma done_not_in evs : ~ In DONE (map sse evs).
Proof.
  intros H. apply in_map_iff in H. destruct H as (ev & H & _).
  exact (sse_not_done ev H).
Qed.

(** How a run ends, in every case: with the events of its four steps,
    or with the same error on every key. *)
Lemma run_pipeline_cases env l r rp :
  exists evs effs,
    run_pipeline env l r rp = (effs, Ok tt) /\
    Gen.yields effs = map sse evs ++ [DONE] /\
    ((exists text resume' client,
        extract_pdf_text env l = Ok text /\
        effective_resume env r rp = Ok resume' /\
        get_client env = Ok client /\
        effs = trace_of env (steps_of env client text resume') /\
        evs = events_of (steps_of env client text resume'))
     \/ (exists msg, effs = emit (abort_events msg) ++ [Yield DONE] /\
                     evs = abort_events msg)).
Proof.
  destruct (extract_pdf_text env l) as [text|e] eqn:H1.
  - destruct (effective_resume env r rp) as [resume'|e] eqn:H2.
    + destruct (get_client env) as [client|e] eqn:H3.
      * eexists _, _. split; [eapply run_pipeline_steps; eassumption|].
        split; [apply yields_trace|]. left. eauto 10.
      * eexists _, _. split; [eapply run_pipeline_no_client; eassumption|].
        split; [rewrite yields_app, yields_emit; reflexivity|]. right. eauto.
    + eexists _, _. split; [eapply run_pipeline_no_resume; eassumption|].
      split; [rewrite yields_app, yields_emit; reflexivity|]. right. eauto.
  - eexists _, _. split; [eapply run_pipeline_no_linkedin; eassumption|].
    split; [rewrite yields_app, yields_emit; reflexivity|]. right. eauto.
Qed.

(** C2: whatever the inputs and whatever fails, [run_pipeline] returns
    normally and the chunks it yields are some events followed by the
    terminator [data: [DONE]], which occurs nowhere else. *)
Theorem C2_one_terminator_last env l r rp :
  snd (run_pipeline env l r rp) = Ok tt /\
  exists body,
    Gen.yields (fst (run_pipeline env l r rp)) = body ++ [DONE] /\
    ~ In DONE body.
Proof.
  destruct (run_pipeline_cases env l r rp) as (evs & effs & -> & Hy & _).
  split; [reflexivity|]. exists (map sse evs).
  split; [exact Hy | apply done_not_in].
Qed.

(** ** Events by key *)

Lemma str_eqb_refl a : str_eqb a a = true.
Proof. induction a as [|x a IH]; cbn; rewrite ?N.eqb_refl, ?IH; reflexivity. Qed.

Lemma str_eqb_eq a : forall b, str_eqb a b = true -> a = b.
Proof.
  induction a as [|x a IH]; intros [|y b]; cbn; try discriminate; auto.
  intros H. apply andb_true_iff in H. destruct H as [H1 H2].
  apply N.eqb_eq in H1. f_equal; auto.
Qed.




Lemma steps_calls env client text resume' :
  let s := steps_of env client text resume' in
  o1 s = outcome (chat_completions_create env client
                    (create_args env SYS_SUMMARIZER (p1 s))) /\
  o2 s = outcome (chat_completions_create env client
                    (create_args env SYS_RESEARCHER (p2 s))) /\
  o3 s = outcome (chat_completions_create env client
                    (create_args env SYS_EVALUATOR (p3 s))) /\
  o4 s = outcome (chat_completions_create env client
                    (create_args env SYS_STRATEGIST (p4 s))).
Proof. cbv zeta. unfold steps_of. cbn [o1 o2 o3 o4 p1 p2 p3 p4]. unfold step_outcome. auto. Qed.






(** ** The step runner *)

Lemma forwarded_all_choices chunks :
  Forall (fun c : chunk => c <> []) chunks -> snd (forwarded chunks) = None.
Proof.
  induction 1 as [|c r Hc _ IH]; [reflexivity|].
  cbn [forwarded]. destruct c as [|[t|] c']; [contradiction| |exact IH].
  destruct (truthy t); exact IH.
Qed.

Lemma tokens_of_step k toks last :
  status_is (py "token") last = false ->
  tokens_of (map (ev_token k) toks ++ [last]) = toks.
Proof.
  intros Hl. unfold tokens_of. rewrite filter_app. cbn [filter]. rewrite Hl, app_nil_r.
  induction toks as [|t ts IH]; [reflexivity|].
  cbn [map filter].
  change (status_is (py "token") (ev_token k t)) with true. cbv iota.
  unfold field in IH |- *. cbn [flat_map]. rewrite IH.
  reflexivity.
Qed.

Lemma outputs_of_step k toks out :
  outputs_of (map (ev_token k) toks ++ [ev_done k out]) = [out].
Proof.
  unfold outputs_of. rewrite filter_app.
  replace (filter (status_is (py "done")) (map (ev_token k) toks)) with (@nil dict).
  - reflexivity.
  - induction toks as [|t ts IH]; [reflexivity|]. cbn [map filter].
    change (status_is (py "done") (ev_token k t)) with false. exact IH.
Qed.

(** C3: when the token stream of a step completes normally (the call
    is accepted, every chunk has a first choice, the stream ends without
    an exception), the step yields its [token] events and then exactly
    one [done] event, and joining the [token] values in order of
    emission gives the [output] value of that [done] event. *)
Theorem C3_tokens_join_to_output env client agent_key system user chunks :
  chat_completions_create env client (create_args env system user)
    = Ok (chunks, None) ->
  Forall (fun c : chunk => c <> []) chunks ->
  exists evs out,
    Gen.yields (fst (llm_stream env client agent_key system user)) = map sse evs /\
    evs = map (ev_token agent_key) (tokens_of evs) ++ [ev_done agent_key out] /\
    outputs_of evs = [out] /\
    join [] (tokens_of evs) = out.
Proof.
  intros Hc Hall. rewrite llm_stream_run, Hc. cbn [fst Gen.yields].
  rewrite yields_emit. unfold step_events, last_event, outcome. cbn [fst snd].
  rewrite (forwarded_all_choices _ Hall).
  set (toks := fst (forwarded chunks)).
  exists (map (ev_token agent_key) toks ++ [ev_done agent_key (join [] toks)]),
    (join [] toks).
  rewrite tokens_of_step by reflexivity.
  rewrite outputs_of_step. auto.
Qed.

Lemma C3_tokens_join_to_output_witness :
  exists evs out,
    Gen.yields (fst (llm_stream Sample.env_ok
                       {| api_key := py "sk-test"; base_url := py "http://localhost" |}
                       K1 SYS_SUMMARIZER (summary_prompt (py "cv")))) = map sse evs /\
    evs = map (ev_token K1) (tokens_of evs) ++ [ev_done K1 out] /\
    outputs_of evs = [out] /\
    join [] (tokens_of evs) = out.
Proof.
  apply (C3_tokens_join_to_output Sample.env_ok _ K1 _ _
           [[Some (py "Hello")]; [None]; [Some (py ", Jane")]]).
  - reflexivity.
  - repeat constructor; discriminate.
Defined.

(** ** Runs that stop before the first step *)





(** ** Failures inside a step *)





(** ** Prompts *)

Lemma user_of_create_args env system user :
  user_of (create_args env system user) = Some user.
Proof. reflexivity. Qed.

Lemma step2_prompt_run env l r rp text resume' client :
  extract_pdf_text env l = Ok text ->
  effective_resume env r rp = Ok resume' ->
  get_client env = Ok client ->
  step2_prompt (run_pipeline env l r rp) =
    Some (research_prompt
            (read_back (step_outcome env client SYS_SUMMARIZER (summary_prompt text)))).
Proof.
  intros H1 H2 H3.
  rewrite (run_pipeline_steps env l r rp text resume' client H1 H2 H3).
  unfold step2_prompt. cbn [fst]. rewrite calls_trace. cbn [nth_error].
  rewrite user_of_create_args. reflexivity.
Qed.

(** C6: the user prompt of the second backend call (deep_research) is
    the research template filled with the text collected from step 1 and
    with nothing else: two runs, in whatever environments and with
    whatever documents, whose collected step-1 texts agree send the same
    step-2 prompt. *)
Theorem C6_research_prompt_from_summary_only
  env env' l l' r r' rp rp' text text' resume1 resume1' client client' :
  extract_pdf_text env l = Ok text ->
  effective_resume env r rp = Ok resume1 ->
  get_client env = Ok client ->
  extract_pdf_text env' l' = Ok text' ->
  effective_resume env' r' rp' = Ok resume1' ->
  get_client env' = Ok client' ->
  read_back (step_outcome env client SYS_SUMMARIZER (summary_prompt text)) =
    read_back (step_outcome env' client' SYS_SUMMARIZER (summary_prompt text')) ->
  step2_prompt (run_pipeline env l r rp) =
    Some (research_prompt
            (read_back (step_outcome env client SYS_SUMMARIZER (summary_prompt text))))
  /\ step2_prompt (run_pipeline env' l' r' rp') = step2_prompt (run_pipeline env l r rp).
Proof.
  intros H1 H2 H3 H1' H2' H3' Hsame.
  rewrite (step2_prompt_run env l r rp text resume1 client H1 H2 H3).
  rewrite (step2_prompt_run env' l' r' rp' text' resume1' client' H1' H2' H3').
  rewrite Hsame. auto.
Qed.

Lemma C6_research_prompt_from_summary_only_witness :
  let client := {| api_key := py "sk-test";
                   base_url := py "https://api.openai.com/v1" |} in
  step2_prompt (run_pipeline Sample.env_ok (py "Jane Doe") [] []) =
    Some (research_prompt
            (read_back (step_outcome Sample.env_ok client SYS_SUMMARIZER
                          (summary_prompt (py "Jane Doe")))))
  /\ step2_prompt (run_pipeline Sample.env_ok (py "John Roe") (py "resume") []) =
     step2_prompt (run_pipeline Sample.env_ok (py "Jane Doe") [] []).
Proof.
  apply (C6_research_prompt_from_summary_only
           Sample.env_ok Sample.env_ok (py "Jane Doe") (py "John Roe")
           [] (py "resume") [] [] (py "Jane Doe") (py "John Roe") [] (py "resume")
           {| api_key := py "sk-test"; base_url := py "https://api.openai.com/v1" |}
           {| api_key := py "sk-test"; base_url := py "https://api.openai.com/v1" |}).
  all: vm_compute; reflexivity.
Defined.




(** ** Extraction *)

Lemma page_texts_ok pages :
  page_texts (map Ok pages) = Ok (map or_empty pages).
Proof.
  induction pages as [|t ts IH]; [reflexivity|].
  cbn [map page_texts and_then]. rewrite IH. cbn [and_then].
  destruct t as [[|c s]|]; reflexivity.
Qed.

(** C8, as the code has it: with the library present, a payload that
    decodes and a document that parses, the extractor joins the texts
    of the pages (a page without text counting as empty) in page order
    with a blank line between them and trims the result; it returns
    that text when it is not empty, and raises a [ValueError] with the
    message [PDF is empty or image-only (scanned PDF not supported).]
    exactly when it is empty.  The result is a function of the payload
    and of what the libraries return for it. *)
Theorem C8_extract_pdf_text env pdf_base64 pdf_bytes pages :
  pypdf_installed env = true ->
  b64decode env pdf_base64 = Ok pdf_bytes ->
  PdfReader env pdf_bytes = Ok (map Ok pages) ->
  let text := strip (join [LF; LF] (map or_empty pages)) in
  (text <> [] -> extract_pdf_text env pdf_base64 = Ok text) /\
  (extract_pdf_text env pdf_base64 =
     Raise (ValueError (py "PDF is empty or image-only (scanned PDF not supported)."))
   <-> text = []).
Proof.
  intros Hi Hb Hp. cbv zeta. unfold extract_pdf_text.
  rewrite Hi, Hb. cbn [and_then]. rewrite Hp. cbn [and_then].
  rewrite page_texts_ok. cbn [and_then].
  destruct (strip (join [LF; LF] (map or_empty pages))) as [|c s] eqn:Ht;
    cbn [truthy negb].
  - split; [intros H; contradiction|]. split; reflexivity.
  - split; [reflexivity|]. split; discriminate.
Qed.

Lemma C8_extract_pdf_text_witness :
  extract_pdf_text
    {| pypdf_installed := true;
       b64decode := fun s => Ok s;
       PdfReader := fun _ => Ok (map Ok [Some (py "  Jane Doe"); None;
                                         Some (py "HR Manager at Acme ")]);
       getenv := Sample.environ;
       chat_completions_create := Sample.two_tokens |} (py "cv") =
    Ok (strip (join [LF; LF]
                 (map or_empty [Some (py "  Jane Doe"); None;
                                Some (py "HR Manager at Acme ")]))).
Proof.
  apply (proj1 (C8_extract_pdf_text
                  {| pypdf_installed := true;
                     b64decode := fun s => Ok s;
                     PdfReader := fun _ => Ok (map Ok [Some (py "  Jane Doe"); None;
                                                       Some (py "HR Manager at Acme ")]);
                     getenv := Sample.environ;
                     chat_completions_create := Sample.two_tokens |}
                  (py "cv") (py "cv") _ eq_refl eq_refl eq_refl)).
  vm_compute. discriminate.
Defined.

(** C8 as it is worded fails: a document without pages is rejected
    with the message of the code, which is not the message the claim
    quotes. *)
Lemma C8_counterexample :
  exists e,
    extract_pdf_text Sample.env_no_pages (py "cv") = Raise e /\
    str_exn e <> py "document is empty or contains no extractable text".
Proof.
  exists (ValueError EMPTY_PDF). split; [vm_compute; reflexivity|].
  vm_compute. discriminate.
Qed.

(** ** Routes *)




(** ** The marker test *)

Lemma sse_token_norm k t : sse (ev_token k (norm t)) = sse (ev_token k t).
Proof. rewrite !sse_token, escape_norm. reflexivity. Qed.

Lemma sse_done_norm k toks :
  sse (ev_done k (join [] (map norm toks))) = sse (ev_done k (join [] toks)).
Proof. rewrite !sse_done, escape_join_norm. reflexivity. Qed.

(** C10: the marker occurs in the serialization of every [token] event
    and of no [running], [done] or [error] event, whatever their
    payloads are; and when the token stream of a step completes
    normally, the orchestrator's loop returns normally, passes on
    exactly the chunks of the step, and these are the [token] events of
    the tokens it collected followed by the [done] event whose [output]
    is the text it collected.  For JSON-safe tokens the collected
    tokens are the very tokens the step forwarded. *)
Theorem C10_marker_selects_token_events
  env client agent_key system user chunks :
  chat_completions_create env client (create_args env system user)
    = Ok (chunks, None) ->
  Forall (fun c : chunk => c <> []) chunks ->
  (forall k t, contains STATUS_TOKEN (sse (ev_token k t)) = true) /\
  (forall k, contains STATUS_TOKEN (sse (ev_running k)) = false) /\
  (forall k out, contains STATUS_TOKEN (sse (ev_done k out)) = false) /\
  (forall k msg, contains STATUS_TOKEN (sse (ev_error k msg)) = false) /\
  exists collected,
    snd (async_for (llm_stream env client agent_key system user) capture [])
      = Ok collected /\
    Gen.yields (fst (async_for (llm_stream env client agent_key system user)
                       capture [])) =
      Gen.yields (fst (llm_stream env client agent_key system user)) /\
    Gen.yields (fst (llm_stream env client agent_key system user)) =
      map sse (map (ev_token agent_key) collected ++
               [ev_done agent_key (join [] collected)]) /\
    (Forall (fun t => json_safe t = true) (fst (forwarded chunks)) ->
     collected = fst (forwarded chunks)).
Proof.
  intros Hc Hall.
  split; [exact marker_in_token|].
  split; [exact marker_not_in_running|].
  split; [exact marker_not_in_done|].
  split; [exact marker_not_in_error|].
  rewrite step_captured, llm_stream_run, Hc. cbn [fst snd Gen.yields].
  rewrite yields_emit. unfold step_events, last_event, outcome. cbn [fst snd].
  rewrite (forwarded_all_choices _ Hall).
  exists (map norm (fst (forwarded chunks))).
  split; [reflexivity|]. split; [reflexivity|]. split.
  - rewrite !map_app. cbn [map]. rewrite sse_done_norm. f_equal.
    rewrite !map_map. apply map_ext. intros t. symmetry. apply sse_token_norm.
  - intros Hsafe. induction Hsafe as [|t ts Ht _ IH]; [reflexivity|].
    cbn [map]. rewrite norm_safe, IH by assumption. reflexivity.
Qed.

Lemma C10_marker_selects_token_events_witness :
  let client := {| api_key := py "sk-test";
                   base_url := py "https://api.openai.com/v1" |} in
  let chunks := [[Some (py "Hello")]; [None]; [Some (py ", Jane")]] in
  (forall k t, contains STATUS_TOKEN (sse (ev_token k t)) = true) /\
  (forall k, contains STATUS_TOKEN (sse (ev_running k)) = false) /\
  (forall k out, contains STATUS_TOKEN (sse (ev_done k out)) = false) /\
  (forall k msg, contains STATUS_TOKEN (sse (ev_error k msg)) = false) /\
  exists collected,
    snd (async_for (llm_stream Sample.env_ok client K1 SYS_SUMMARIZER
                      (summary_prompt (py "cv"))) capture [])
      = Ok collected /\
    Gen.yields (fst (async_for (llm_stream Sample.env_ok client K1 SYS_SUMMARIZER
                                  (summary_prompt (py "cv"))) capture [])) =
      Gen.yields (fst (llm_stream Sample.env_ok client K1 SYS_SUMMARIZER
                         (summary_prompt (py "cv")))) /\
    Gen.yields (fst (llm_stream Sample.env_ok client K1 SYS_SUMMARIZER
                       (summary_prompt (py "cv")))) =
      map sse (map (ev_token K1) collected ++ [ev_done K1 (join [] collected)]) /\
    (Forall (fun t => json_safe t = true) (fst (forwarded chunks)) ->
     collected = fst (forwarded chunks)).
Proof.
  apply (C10_marker_selects_token_events Sample.env_ok _ K1 _ _
           [[Some (py "Hello")]; [None]; [Some (py ", Jane")]]).
  - reflexivity.
  - repeat constructor; discriminate.
Defined.


(** * Further properties of the code *)

Import Framing.

(** ** Trimming *)

Lemma lstrip_fixed s :
  match s with [] => True | c :: _ => is_space c = false end -> lstrip s = s.
Proof. destruct s as [|c r]; [reflexivity|]. cbn [lstrip]. intros ->. reflexivity. Qed.

Lemma lstrip_head s :
  match lstrip s with [] => True | c :: _ => is_space c = false end.
Proof.
  induction s as [|c r IH]; [exact I|].
  cbn [lstrip]. destruct (is_space c) eqn:Hc; [exact IH | exact Hc].
Qed.

Lemma lstrip_idem s : lstrip (lstrip s) = lstrip s.
Proof. apply lstrip_fixed, lstrip_head. Qed.

Lemma lstrip_snoc a c :
  is_space c = false -> lstrip (a ++ [c]) = lstrip a ++ [c].
Proof.
  intros Hc. induction a as [|x a IH]; cbn [app lstrip].
  - rewrite Hc. reflexivity.
  - destruct (is_space x); [exact IH | reflexivity].
Qed.

Lemma rstrip_cons c r : is_space c = false -> rstrip (c :: r) = c :: rstrip r.
Proof.
  intros Hc. unfold rstrip. cbn [rev].
  rewrite lstrip_snoc by assumption. rewrite rev_app_distr. reflexivity.
Qed.

Lemma rstrip_idem s : rstrip (rstrip s) = rstrip s.
Proof. unfold rstrip. rewrite rev_involutive, lstrip_idem. reflexivity. Qed.

(** [strip] by cases on what [lstrip] leaves. *)
Lemma strip_cases s :
  strip s = match lstrip s with [] => [] | c :: r => c :: rstrip r end.
Proof.
  unfold strip. pose proof (lstrip_head s) as H.
  destruct (lstrip s) as [|c r]; [reflexivity|]. apply rstrip_cons, H.
Qed.

Lemma strip_trimmed s : trimmed (strip s).
Proof.
  split.
  - rewrite strip_cases. pose proof (lstrip_head s) as H.
    destruct (lstrip s) as [|c r]; [reflexivity|]. apply lstrip_fixed, H.
  - unfold strip. apply rstrip_idem.
Qed.

Lemma strip_idem s : strip (strip s) = strip s.
Proof.
  destruct (strip_trimmed s) as [Hl Hr]. unfold strip at 1. rewrite Hl. exact Hr.
Qed.

Lemma lstrip_nil_iff s : lstrip s = [] <-> forallb is_space s = true.
Proof.
  induction s as [|c r IH]; [split; reflexivity|].
  cbn [lstrip forallb]. destruct (is_space c); cbn [andb]; [exact IH|].
  split; discriminate.
Qed.

Lemma strip_nil_iff s : strip s = [] <-> forallb is_space s = true.
Proof.
  rewrite strip_cases, <- lstrip_nil_iff.
  destruct (lstrip s); split; (reflexivity || discriminate).
Qed.

(** ** Extraction *)

(** X2: the extractor never lets an [ImportError] out: whether the
    library is missing or one is raised while decoding, parsing or
    reading a page, the caller gets the [RuntimeError] with the
    installation hint; without the library that is the result for every
    payload. *)
Theorem X2_import_error_translated env pdf_base64 :
  (forall msg, extract_pdf_text env pdf_base64 <> Raise (ImportError msg)) /\
  (pypdf_installed env = false ->
   extract_pdf_text env pdf_base64 =
     Raise (RuntimeError (py "pypdf not installed. Run: pip install pypdf"))).
Proof.
  unfold extract_pdf_text. split.
  - intros msg.
    destruct (if pypdf_installed env then _ else _) as [t|[]]; discriminate.
  - intros ->. reflexivity.
Qed.

Lemma X2_import_error_translated_witness :
  (forall msg,
     extract_pdf_text
       {| pypdf_installed := false; b64decode := fun s => Ok s;
          PdfReader := Sample.one_page; getenv := Sample.environ;
          chat_completions_create := Sample.two_tokens |} (py "cv")
     <> Raise (ImportError msg)) /\
  extract_pdf_text
    {| pypdf_installed := false; b64decode := fun s => Ok s;
       PdfReader := Sample.one_page; getenv := Sample.environ;
       chat_completions_create := Sample.two_tokens |} (py "cv") =
    Raise (RuntimeError (py "pypdf not installed. Run: pip install pypdf")).
Proof.
  split.
  - apply (proj1 (X2_import_error_translated
                    {| pypdf_installed := false; b64decode := fun s => Ok s;
                       PdfReader := Sample.one_page; getenv := Sample.environ;
                       chat_completions_create := Sample.two_tokens |} (py "cv"))).
  - apply (proj2 (X2_import_error_translated
                    {| pypdf_installed := false; b64decode := fun s => Ok s;
                       PdfReader := Sample.one_page; getenv := Sample.environ;
                       chat_completions_create := Sample.two_tokens |} (py "cv"))).
    reflexivity.
Defined.

Lemma extract_ok_strip env pdf_base64 text :
  extract_pdf_text env pdf_base64 = Ok text ->
  text <> [] /\ exists raw, text = strip raw.
Proof.
  unfold extract_pdf_text.
  destruct (pypdf_installed env); [|discriminate].
  destruct (b64decode env pdf_base64) as [bs|e]; cbn [and_then];
    [|destruct e; discriminate].
  destruct (PdfReader env bs) as [pages|e]; cbn [and_then];
    [|destruct e; discriminate].
  destruct (page_texts pages) as [texts|e]; cbn [and_then];
    [|destruct e; discriminate].
  destruct (strip (join [LF; LF] texts)) as [|c s] eqn:Ht; cbn [truthy negb];
    [discriminate|].
  intros [= <-]. split; [discriminate|]. exists (join [LF; LF] texts).
  symmetry. exact Ht.
Qed.

Lemma extract_ok_fixed env pdf_base64 text :
  extract_pdf_text env pdf_base64 = Ok text -> text <> [] /\ strip text = text.
Proof.
  intros H. destruct (extract_ok_strip _ _ _ H) as (Hne & raw & ->).
  split; [exact Hne | apply strip_idem].
Qed.

(** X3: a text the extractor returns is never empty and has no white
    space left at either end: trimming it again changes nothing. *)
Theorem X3_extracted_text_trimmed env pdf_base64 text :
  extract_pdf_text env pdf_base64 = Ok text ->
  text <> [] /\ trimmed text /\ strip text = text.
Proof.
  intros H. destruct (extract_ok_strip _ _ _ H) as (Hne & raw & ->).
  split; [exact Hne|]. split; [apply strip_trimmed | apply strip_idem].
Qed.

Lemma X3_extracted_text_trimmed_witness :
  py "Jane Doe" <> [] /\ trimmed (py "Jane Doe") /\ strip (py "Jane Doe") = py "Jane Doe".
Proof.
  apply (X3_extracted_text_trimmed
           {| pypdf_installed := true; b64decode := fun s => Ok s;
              PdfReader := fun _ => Ok [Ok (Some (py " Jane Doe  "))];
              getenv := Sample.environ;
              chat_completions_create := Sample.two_tokens |} (py "cv")).
  vm_compute. reflexivity.
Defined.

(** ** The resume *)

(** X4: when a resume document is supplied, the resume text of the
    request plays no part: two runs that differ only in it are the same
    run, effect for effect, also when the document cannot be read. *)
Theorem X4_resume_text_ignored env l r r' rp :
  truthy rp = true ->
  run_pipeline env l r rp = run_pipeline env l r' rp.
Proof. intros H. unfold run_pipeline. rewrite H. reflexivity. Qed.

Lemma X4_resume_text_ignored_witness :
  run_pipeline Sample.env_ok (py "cv") (py "typed in") (py "from the document") =
  run_pipeline Sample.env_ok (py "cv") [] (py "from the document").
Proof.
  apply (X4_resume_text_ignored Sample.env_ok (py "cv") (py "typed in") []
           (py "from the document")).
  reflexivity.
Defined.

(** X5: the text of a resume document always goes into the prompts
    under the heading; the placeholder is never used for it. *)
Theorem X5_document_resume_never_placeholder env r rp resume' :
  truthy rp = true ->
  effective_resume env r rp = Ok resume' ->
  resume_block_of resume' = py "CANDIDATE RESUME:" ++ [LF] ++ resume'.
Proof.
  unfold effective_resume. intros -> H.
  destruct (extract_ok_fixed env rp resume' H) as (Hne & Hs).
  unfold resume_block_of. rewrite Hs.
  destruct resume'; [contradiction|]. reflexivity.
Qed.

Lemma X5_document_resume_never_placeholder_witness :
  resume_block_of (py "from the document") =
    py "CANDIDATE RESUME:" ++ [LF] ++ py "from the document".
Proof.
  apply (X5_document_resume_never_placeholder Sample.env_ok (py "typed in")
           (py "from the document") (py "from the document")).
  - reflexivity.
  - vm_compute. reflexivity.
Defined.

(** X12: the placeholder stands in exactly for a resume text that is
    empty or made of white space only; any other text is passed
    verbatim, untrimmed, under the heading. *)
Theorem X12_placeholder_iff_blank resume :
  (forallb is_space resume = true ->
   resume_block_of resume = py "No resume provided — evaluate generally.") /\
  (forallb is_space resume = false ->
   resume_block_of resume = py "CANDIDATE RESUME:" ++ [LF] ++ resume) /\
  (resume_block_of resume = py "No resume provided — evaluate generally."
   <-> forallb is_space resume = true).
Proof.
  unfold resume_block_of.
  destruct (forallb is_space resume) eqn:Hb.
  - apply strip_nil_iff in Hb. rewrite Hb. cbn [truthy].
    split; [reflexivity|]. split; [discriminate|]. split; reflexivity.
  - assert (Hs : strip resume <> [])
      by (intros H; apply strip_nil_iff in H; congruence).
    destruct (strip resume); [contradiction|]. cbn [truthy].
    split; [discriminate|]. split; [reflexivity|].
    split; [|discriminate]. intros H.
    apply (f_equal (fun s => nth 0 s 0)) in H. vm_compute in H. discriminate H.
Qed.

Lemma X12_placeholder_iff_blank_witness :
  resume_block_of [32; 9; LF] = py "No resume provided — evaluate generally." /\
  resume_block_of (py " Senior Engineer ") =
    py "CANDIDATE RESUME:" ++ [LF] ++ py " Senior Engineer ".
Proof.
  split.
  - apply (proj1 (X12_placeholder_iff_blank [32; 9; LF])). reflexivity.
  - apply (proj1 (proj2 (X12_placeholder_iff_blank (py " Senior Engineer ")))).
    reflexivity.
Defined.

(** ** The client and the backend calls *)



Lemma calls_abort msg : Gen.calls (emit (abort_events msg) ++ [Yield DONE]) = [].
Proof. rewrite calls_app, calls_emit. reflexivity. Qed.

(** X6: a run makes no backend call or four.  Every call names the
    model the health route reports, asks for temperature 0.3 and for a
    stream, and sends two messages, [system] then [user]; the four
    system messages are those of the summarizer, the researcher, the
    evaluator and the strategist, in that order. *)
Theorem X6_backend_calls env l r rp :
  Forall (fun req =>
            Json.get (py "model") (health env) = Some (model req) /\
            temperature_tenths req = 3 /\ stream req = true /\
            map fst (messages req) = [py "system"; py "user"])
         (Gen.calls (fst (run_pipeline env l r rp))) /\
  (Gen.calls (fst (run_pipeline env l r rp)) = [] \/
   map system_of (Gen.calls (fst (run_pipeline env l r rp))) =
     [Some SYS_SUMMARIZER; Some SYS_RESEARCHER; Some SYS_EVALUATOR;
      Some SYS_STRATEGIST]).
Proof.
  destruct (run_pipeline_cases env l r rp) as (evs & effs & -> & _ & Hcase).
  cbn [fst].
  destruct Hcase as [(text & resume' & client & _ & _ & _ & -> & _) | (msg & -> & _)].
  - rewrite calls_trace. split.
    + repeat constructor.
    + right. reflexivity.
  - rewrite calls_abort. split; [constructor | left; reflexivity].
Qed.

(** X13: in a run that got past extraction and client set-up the steps
    follow one another strictly: the [running] event of a step is
    yielded, then its backend call is opened, then its tokens and its
    closing event are yielded, and only then does the next step begin;
    the terminator comes after the closing event of the fourth step. *)
Theorem X13_steps_in_sequence env l r rp text resume' client :
  extract_pdf_text env l = Ok text ->
  effective_resume env r rp = Ok resume' ->
  get_client env = Ok client ->
  exists q1 q2 q3 q4,
    let call := fun system user =>
      outcome (chat_completions_create env client (create_args env system user)) in
    fst (run_pipeline env l r rp) =
      Yield (sse (ev_running K1)) :: Create (create_args env SYS_SUMMARIZER q1) ::
        emit (step_events K1 (call SYS_SUMMARIZER q1)) ++
      Yield (sse (ev_running K2)) :: Create (create_args env SYS_RESEARCHER q2) ::
        emit (step_events K2 (call SYS_RESEARCHER q2)) ++
      Yield (sse (ev_running K3)) :: Create (create_args env SYS_EVALUATOR q3) ::
        emit (step_events K3 (call SYS_EVALUATOR q3)) ++
      Yield (sse (ev_running K4)) :: Create (create_args env SYS_STRATEGIST q4) ::
        emit (step_events K4 (call SYS_STRATEGIST q4)) ++
      [Yield DONE].
Proof.
  intros H1 H2 H3.
  rewrite (run_pipeline_steps env l r rp text resume' client H1 H2 H3).
  cbn [fst]. unfold trace_of, step.
  destruct (steps_calls env client text resume') as (E1 & E2 & E3 & E4).
  set (s := steps_of env client text resume') in *.
  exists (p1 s), (p2 s), (p3 s), (p4 s). cbv zeta.
  rewrite <- E1, <- E2, <- E3, <- E4. reflexivity.
Qed.

Lemma X13_steps_in_sequence_witness :
  exists q1 q2 q3 q4,
    let call := fun system user =>
      outcome (chat_completions_create Sample.env_ok
                 {| api_key := py "sk-test"; base_url := py "https://api.openai.com/v1" |}
                 (create_args Sample.env_ok system user)) in
    fst (run_pipeline Sample.env_ok (py "cv") [] []) =
      Yield (sse (ev_running K1)) ::
        Create (create_args Sample.env_ok SYS_SUMMARIZER q1) ::
        emit (step_events K1 (call SYS_SUMMARIZER q1)) ++
      Yield (sse (ev_running K2)) ::
        Create (create_args Sample.env_ok SYS_RESEARCHER q2) ::
        emit (step_events K2 (call SYS_RESEARCHER q2)) ++
      Yield (sse (ev_running K3)) ::
        Create (create_args Sample.env_ok SYS_EVALUATOR q3) ::
        emit (step_events K3 (call SYS_EVALUATOR q3)) ++
      Yield (sse (ev_running K4)) ::
        Create (create_args Sample.env_ok SYS_STRATEGIST q4) ::
        emit (step_events K4 (call SYS_STRATEGIST q4)) ++
      [Yield DONE].
Proof.
  apply (X13_steps_in_sequence Sample.env_ok (py "cv") [] [] (py "cv") []).
  all: vm_compute; reflexivity.
Defined.

(** ** The step runner at its edges *)

Lemma forwarded_nonempty chunks : Forall (fun t => t <> []) (fst (forwarded chunks)).
Proof.
  induction chunks as [|c r IH]; [constructor|].
  cbn [forwarded]. destruct c as [|[t|] c']; [constructor| |exact IH].
  destruct t as [|x t]; cbn [truthy fst]; [exact IH|].
  constructor; [discriminate | exact IH].
Qed.

Lemma forwarded_app pre rest :
  Forall (fun c : chunk => c <> []) pre ->
  forwarded (pre ++ rest) =
    (fst (forwarded pre) ++ fst (forwarded rest), snd (forwarded rest)).
Proof.
  induction 1 as [|c r Hc _ IH]; [cbn; destruct (forwarded rest); reflexivity|].
  cbn [app forwarded]. destruct c as [|[t|] c']; [contradiction| |exact IH].
  destruct (truthy t); [|exact IH]. rewrite IH. reflexivity.
Qed.

Lemma yields_llm_stream env client k system user :
  Gen.yields (fst (llm_stream env client k system user)) =
    map sse (step_events k
               (outcome (chat_completions_create env client
                           (create_args env system user)))).
Proof. rewrite llm_stream_run. cbn [fst Gen.yields]. apply yields_emit. Qed.

(** X9: for any step key and prompts, one call of the step runner
    opens exactly one backend stream and never raises; what it yields
    is a run of [token] events, none with an empty token, closed by
    exactly one [done] or [error] event. *)
Theorem X9_step_runner_contained env client agent_key system user :
  snd (llm_stream env client agent_key system user) = Ok tt /\
  Gen.calls (fst (llm_stream env client agent_key system user)) =
    [create_args env system user] /\
  exists toks last,
    Gen.yields (fst (llm_stream env client agent_key system user)) =
      map sse (map (ev_token agent_key) toks ++ [last]) /\
    is_closing agent_key last /\
    Forall (fun t => t <> []) toks.
Proof.
  rewrite yields_llm_stream, llm_stream_run. cbn [fst snd Gen.calls].
  rewrite calls_emit. split; [reflexivity|]. split; [reflexivity|].
  set (o := outcome _).
  exists (fst o), (last_event agent_key o). split; [reflexivity|]. split.
  - unfold is_closing, last_event. destruct (snd o); eauto.
  - unfold o, outcome.
    destruct (chat_completions_create env client (create_args env system user))
      as [[chunks final]|e]; [apply forwarded_nonempty | constructor].
Qed.

(** X10: a chunk without choices ends the step: the tokens of the
    chunks before it stay, one [error] event with the message
    [list index out of range] follows, and nothing that comes after
    that chunk, tokens or failure, shows in the stream. *)
Theorem X10_chunk_without_choices env client agent_key system user pre post final :
  chat_completions_create env client (create_args env system user)
    = Ok (pre ++ [] :: post, final) ->
  Forall (fun c : chunk => c <> []) pre ->
  Gen.yields (fst (llm_stream env client agent_key system user)) =
    map sse (map (ev_token agent_key) (fst (forwarded pre)) ++
             [ev_error agent_key (py "list index out of range")]).
Proof.
  intros Hc Hpre. rewrite yields_llm_stream, Hc.
  unfold step_events, last_event, outcome. cbn [fst snd].
  rewrite forwarded_app by exact Hpre. cbn [forwarded fst snd].
  rewrite app_nil_r. reflexivity.
Qed.

Lemma X10_chunk_without_choices_witness :
  Gen.yields
    (fst (llm_stream
            {| pypdf_installed := true; b64decode := fun s => Ok s;
               PdfReader := Sample.one_page; getenv := Sample.environ;
               chat_completions_create := fun _ _ =>
                 Ok ([[Some (py "Hel")]] ++ [] :: [[Some (py "lo")]], None) |}
            {| api_key := py "sk-test"; base_url := py "https://api.openai.com/v1" |}
            K1 SYS_SUMMARIZER (summary_prompt (py "cv")))) =
    map sse (map (ev_token K1) (fst (forwarded [[Some (py "Hel")]])) ++
             [ev_error K1 (py "list index out of range")]).
Proof.
  apply (X10_chunk_without_choices
           {| pypdf_installed := true; b64decode := fun s => Ok s;
              PdfReader := Sample.one_page; getenv := Sample.environ;
              chat_completions_create := fun _ _ =>
                Ok ([[Some (py "Hel")]] ++ [] :: [[Some (py "lo")]], None) |}
           _ K1 _ _ [[Some (py "Hel")]] [[Some (py "lo")]] None).
  - reflexivity.
  - repeat constructor. discriminate.
Defined.

(** X11: a failure of the backend is reported once and takes nothing
    back: when the call itself is refused the step yields the [error]
    event alone; when the stream breaks after some chunks, the tokens
    forwarded so far stay in the stream and the [error] event with the
    message of the exception follows them. *)
Theorem X11_failure_keeps_tokens env client agent_key system user :
  (forall e,
     chat_completions_create env client (create_args env system user) = Raise e ->
     Gen.yields (fst (llm_stream env client agent_key system user)) =
       [sse (ev_error agent_key (str_exn e))]) /\
  (forall chunks e,
     chat_completions_create env client (create_args env system user)
       = Ok (chunks, Some e) ->
     Forall (fun c : chunk => c <> []) chunks ->
     Gen.yields (fst (llm_stream env client agent_key system user)) =
       map sse (map (ev_token agent_key) (fst (forwarded chunks)) ++
                [ev_error agent_key (str_exn e)])).
Proof.
  split.
  - intros e Hc. rewrite yields_llm_stream, Hc. reflexivity.
  - intros chunks e Hc Hall. rewrite yields_llm_stream, Hc.
    unfold step_events, last_event, outcome. cbn [fst snd].
    rewrite (forwarded_all_choices _ Hall). reflexivity.
Qed.

Lemma X11_failure_keeps_tokens_witness :
  Gen.yields
    (fst (llm_stream
            {| pypdf_installed := true; b64decode := fun s => Ok s;
               PdfReader := Sample.one_page; getenv := Sample.environ;
               chat_completions_create := fun _ _ =>
                 Raise (OtherError (py "Connection error.")) |}
            {| api_key := py "sk-test"; base_url := py "https://api.openai.com/v1" |}
            K1 SYS_SUMMARIZER (summary_prompt (py "cv")))) =
    [sse (ev_error K1 (str_exn (OtherError (py "Connection error."))))] /\
  Gen.yields
    (fst (llm_stream Sample.env_broken_stream
            {| api_key := py "sk-test"; base_url := py "https://api.openai.com/v1" |}
            K1 SYS_SUMMARIZER (summary_prompt (py "cv")))) =
    map sse (map (ev_token K1) (fst (forwarded [[Some (py "Hel")]])) ++
             [ev_error K1 (str_exn (OtherError (py "Connection error.")))]).
Proof.
  split.
  - apply (proj1 (X11_failure_keeps_tokens
                    {| pypdf_installed := true; b64decode := fun s => Ok s;
                       PdfReader := Sample.one_page; getenv := Sample.environ;
                       chat_completions_create := fun _ _ =>
                         Raise (OtherError (py "Connection error.")) |}
                    _ K1 _ _)).
    reflexivity.
  - apply (proj2 (X11_failure_keeps_tokens Sample.env_broken_stream _ K1 _ _)
             [[Some (py "Hel")]]).
    + reflexivity.
    + repeat constructor. discriminate.
Defined.

(** ** What a client reads *)

Lemma norm_items_safe (d : Json.dict) :
  Forall (fun kv => json_safe (fst kv) = true /\ json_safe (snd kv) = true) d ->
  map norm_item d = d.
Proof.
  induction 1 as [|[k v] d [Hk Hv] _ IH]; [reflexivity|].
  cbn [map]. unfold norm_item at 1. cbn [fst snd] in *.
  rewrite !norm_safe, IH by assumption. reflexivity.
Qed.

(** X7: a client that drops the six characters [data: ] of a chunk and
    parses the rest gets the event back, key for key and value for
    value, whatever characters the values hold (quotes, backslashes,
    line feeds, characters outside ASCII), as long as they are JSON-safe
    text. *)
Theorem X7_event_round_trip (event : Json.dict) :
  Forall (fun kv => json_safe (fst kv) = true /\ json_safe (snd kv) = true) event ->
  Json.loads (skipn 6 (sse event)) = Ok event.
Proof.
  intros H.
  change (skipn 6 (sse event)) with (Json.dumps event ++ [LF; LF]).
  destruct event as [|kv d]; [vm_compute; reflexivity|].
  rewrite loads_dumps, norm_items_safe by assumption. reflexivity.
Qed.

Lemma X7_event_round_trip_witness :
  Json.loads
    (skipn 6 (sse (ev_token K1 ([DQ; BS; LF] ++ py "status: “token” — ok")))) =
    Ok (ev_token K1 ([DQ; BS; LF] ++ py "status: “token” — ok")).
Proof.
  apply (X7_event_round_trip
           (ev_token K1 ([DQ; BS; LF] ++ py "status: “token” — ok"))).
  repeat constructor.
Defined.

(** ** Framing *)

Lemma hexdigit_printable d : d < 16 -> printable (hexdigit d).
Proof. intros H. unfold printable, hexdigit. destruct (d <? 10) eqn:E; bool_to_prop; lia. Qed.

(** Peels the literal characters off the front of a list. *)
Ltac printable_chars :=
  repeat (apply Forall_cons; [unfold printable, DQ, BS, LF; lia|]).

Lemma u_escape_printable n : n < 65536 -> Forall printable (u_escape n).
Proof.
  intros H. unfold u_escape, hex4. printable_chars.
  repeat (apply Forall_cons; [apply hexdigit_printable; nlia|]).
  apply Forall_nil.
Qed.

Lemma short_escape_printable c e : short_escape c = Some e -> printable e.
Proof.
  unfold short_escape, printable, DQ, BS.
  repeat match goal with
  | |- context [if ?c =? ?k then _ else _] =>
      destruct (c =? k); [intros [= <-]; lia|]
  end.
  discriminate.
Qed.

Lemma esc_char_printable c : Forall printable (esc_char c).
Proof.
  destruct (esc_char_shape c) as [Hp | e _ He | _ _ Hc | Hc].
  - destruct (plain_inv _ Hp) as (Hr & _ & _).
    apply Forall_cons; [exact Hr | apply Forall_nil].
  - printable_chars.
    apply Forall_cons; [exact (short_escape_printable _ _ He) | apply Forall_nil].
  - apply u_escape_printable, Hc.
  - pose proof (hi_range c). pose proof (lo_range c).
    apply Forall_app. split; apply u_escape_printable; lia.
Qed.

Lemma escape_printable s : Forall printable (escape s).
Proof.
  induction s as [|c r IH]; [constructor|].
  cbn [escape]. apply Forall_app. split; [apply esc_char_printable | exact IH].
Qed.

Lemma ser_items_printable d : forall kv rest,
  Forall printable rest -> Forall printable (ser_items kv d rest).
Proof.
  induction d as [|kv' d IH]; intros kv rest Hrest; cbn [ser_items];
    (apply Forall_app; split; [apply escape_printable|]); printable_chars;
    (apply Forall_app; split; [apply escape_printable|]); printable_chars.
  - exact Hrest.
  - apply IH, Hrest.
Qed.

Lemma dumps_printable d : Forall printable (Json.dumps d).
Proof.
  destruct d as [|kv d].
  - change (Json.dumps []) with [123; 125]. printable_chars. apply Forall_nil.
  - rewrite <- (app_nil_r (Json.dumps (kv :: d))), dumps_items.
    printable_chars. apply ser_items_printable. printable_chars. apply Forall_nil.
Qed.

Lemma sse_framed ev : framed (sse ev).
Proof. exists (Json.dumps ev). split; [reflexivity | apply dumps_printable]. Qed.

(** X8: every chunk a run yields, events and terminator alike and
    whatever the documents, the tokens and the error messages contain,
    is one well-framed record of the event stream: the six characters
    [data: ], then characters from space to tilde only (so no line
    break), then exactly two line feeds. *)
Theorem X8_chunks_are_framed env l r rp :
  Forall framed (Gen.yields (fst (run_pipeline env l r rp))).
Proof.
  destruct (run_pipeline_cases env l r rp) as (evs & effs & -> & Hy & _).
  cbn [fst]. rewrite Hy. apply Forall_app. split.
  - apply Forall_forall. intros c Hc. apply in_map_iff in Hc.
    destruct Hc as (ev & <- & _). apply sse_framed.
  - apply Forall_cons; [|apply Forall_nil].
    exists (py "[DONE]"). split; [reflexivity|].
    change (py "[DONE]") with [91; 68; 79; 78; 69; 93].
    printable_chars. apply Forall_nil.
Qed.

(** ** Data flow *)

(** X14: after step 1 the primary document reaches the backend only
    through the text collected from step 1: two runs in the same
    environment, on different documents but with the same resume text,
    whose collected step-1 texts agree make the same second, third and
    fourth backend call. *)
Theorem X14_document_flows_through_step1 env l l' r r' rp rp' text text' resume1 client :
  extract_pdf_text env l = Ok text ->
  extract_pdf_text env l' = Ok text' ->
  effective_resume env r rp = Ok resume1 ->
  effective_resume env r' rp' = Ok resume1 ->
  get_client env = Ok client ->
  read_back (step_outcome env client SYS_SUMMARIZER (summary_prompt text)) =
    read_back (step_outcome env client SYS_SUMMARIZER (summary_prompt text')) ->
  List.length (Gen.calls (fst (run_pipeline env l r rp))) = 4%nat /\
  tl (Gen.calls (fst (run_pipeline env l r rp))) =
    tl (Gen.calls (fst (run_pipeline env l' r' rp'))).
Proof.
  intros H1 H1' H2 H2' H3 Hsame.
  rewrite (run_pipeline_steps env l r rp text resume1 client H1 H2 H3).
  rewrite (run_pipeline_steps env l' r' rp' text' resume1 client H1' H2' H3).
  cbn [fst]. rewrite !calls_trace. cbn [tl List.length].
  unfold steps_of. cbn [p1 p2 p3 p4 o1 o2 o3 o4].
  rewrite Hsame. auto.
Qed.

Lemma X14_document_flows_through_step1_witness :
  List.length (Gen.calls (fst (run_pipeline Sample.env_ok (py "Jane Doe")
                                 (py "resume") []))) = 4%nat /\
  tl (Gen.calls (fst (run_pipeline Sample.env_ok (py "Jane Doe") (py "resume") []))) =
    tl (Gen.calls (fst (run_pipeline Sample.env_ok (py "John Roe") (py "typed in")
                          (py "resume")))).
Proof.
  apply (X14_document_flows_through_step1 Sample.env_ok
           (py "Jane Doe") (py "John Roe") (py "resume") (py "typed in")
           [] (py "resume") (py "Jane Doe") (py "John Roe") (py "resume")
           {| api_key := py "sk-test"; base_url := py "https://api.openai.com/v1" |}).
  all: vm_compute; reflexivity.
Defined.

(** ** Pages that cannot be read *)

Lemma page_texts_raise pre e post :
  page_texts (map Ok pre ++ Raise e :: post) = Raise e.
Proof.
  induction pre as [|t ts IH]; [reflexivity|].
  cbn [map app page_texts and_then]. rewrite IH. reflexivity.
Qed.

(** X15: one page whose text extraction raises makes the whole
    extraction fail with that exception (an [ImportError] as the
    [RuntimeError] with the installation hint), whatever text the pages
    before and after it hold. *)
Theorem X15_unreadable_page env pdf_base64 pdf_bytes pre e post :
  pypdf_installed env = true ->
  b64decode env pdf_base64 = Ok pdf_bytes ->
  PdfReader env pdf_bytes = Ok (map Ok pre ++ Raise e :: post) ->
  extract_pdf_text env pdf_base64 =
    Raise (match e with
           | ImportError _ => RuntimeError (py "pypdf not installed. Run: pip install pypdf")
           | _ => e
           end).
Proof.
  intros Hi Hb Hp. unfold extract_pdf_text.
  rewrite Hi, Hb. cbn [and_then]. rewrite Hp. cbn [and_then].
  rewrite page_texts_raise. cbn [and_then]. destruct e; reflexivity.
Qed.

Lemma X15_unreadable_page_witness :
  extract_pdf_text
    {| pypdf_installed := true; b64decode := fun s => Ok s;
       PdfReader := fun _ =>
         Ok (map Ok [Some (py "Jane Doe")] ++
             Raise (OtherError (py "Unexpected end of stream")) ::
             [Ok (Some (py "HR Manager"))]);
       getenv := Sample.environ;
       chat_completions_create := Sample.two_tokens |} (py "cv") =
    Raise (match OtherError (py "Unexpected end of stream") with
           | ImportError _ => RuntimeError (py "pypdf not installed. Run: pip install pypdf")
           | _ => OtherError (py "Unexpected end of stream")
           end).
Proof.
  apply (X15_unreadable_page
           {| pypdf_installed := true; b64decode := fun s => Ok s;
              PdfReader := fun _ =>
                Ok (map Ok [Some (py "Jane Doe")] ++
                    Raise (OtherError (py "Unexpected end of stream")) ::
                    [Ok (Some (py "HR Manager"))]);
              getenv := Sample.environ;
              chat_completions_create := Sample.two_tokens |}
           (py "cv") (py "cv") [Some (py "Jane Doe")]
           (OtherError (py "Unexpected end of stream")) [Ok (Some (py "HR Manager"))]).
  all: reflexivity.
Defined.
